(** * Load-shedding prediction service: the prediction resolution pipeline

    A shallow embedding of [backend/api/app/services/ml_service.py]
    (class [MLService]) and of the part of
    [backend/api/app/services/cache_service.py] it calls, followed by the
    properties of the cascade
    cache hit -> trained model -> rule-based estimator -> emergency default.

    Conventions of the embedding.
    - Python values that can sit in the input record are the scalars of
      [value]; a Python [float] is a binary64 [float] of the kernel, with the
      IEEE operations of [PrimFloat]; a Python [int] is a [Z].
    - Code that can raise lives in the error monad [Exc]; [try ... except
      Exception] is [try_except].
    - The input record is an association list in insertion order, as a
      Python [dict] keeps it; [dict_wf] is the invariant that keys are
      distinct.
    - What the interpreter and the libraries decide (the per-process string
      [hash], [repr], [pandas.to_datetime], [int(str)], [isoformat]) is a
      [Variable] of the section; trained models and the scaler are records
      of functions that may raise. *)

From Stdlib Require Import ZArith Floats Lia Bool.
From stdpp Require Import base option list strings sorting pretty gmap fin_maps.

Set Warnings "-inexact-float".
Local Open Scope string_scope.
Local Open Scope Z_scope.

(** ** Exceptions and the error monad *)

Inductive exn :=
| KeyError (k : string)
| TypeError (msg : string)
| ValueError (msg : string)
| OverflowError (msg : string)
| ZeroDivisionError (msg : string)
| LibraryError (msg : string).

Inductive Exc (A : Type) :=
| Ok (a : A)
| Raise (e : exn).
Arguments Ok {A} a.
Arguments Raise {A} e.

Definition bind {A B} (m : Exc A) (k : A -> Exc B) : Exc B :=
  match m with
  | Ok a => k a
  | Raise e => Raise e
  end.

Notation "'do' x <- m ; k" := (bind m (fun x => k))
  (at level 20, x name, m at level 100, k at level 200).

(** [try: body except Exception as e: handler e] *)
Definition try_except {A} (body : Exc A) (handler : exn -> Exc A) : Exc A :=
  match body with
  | Ok a => Ok a
  | Raise e => handler e
  end.

(** [str(e)]: a [KeyError] prints the repr of its key (the keys looked up
    here hold no quote), every other exception the message it was raised
    with. *)
Definition exn_str (e : exn) : string :=
  match e with
  | KeyError k => "'" +:+ k +:+ "'"
  | TypeError msg | ValueError msg | OverflowError msg
  | ZeroDivisionError msg | LibraryError msg => msg
  end.

(** ** Python scalars *)

Inductive value :=
| VNone
| VBool (b : bool)
| VInt (n : Z)
| VFloat (f : float)
| VStr (s : string).

(** The numeric tower: [bool] is a subtype of [int]. *)
Inductive num :=
| NInt (n : Z)
| NFloat (f : float).

Definition as_num (v : value) : option num :=
  match v with
  | VBool b => Some (NInt (if b then 1 else 0))
  | VInt n => Some (NInt n)
  | VFloat f => Some (NFloat f)
  | VNone | VStr _ => None
  end.

(** [type(v).__name__] *)
Definition py_type (v : value) : string :=
  match v with
  | VNone => "NoneType"
  | VBool _ => "bool"
  | VInt _ => "int"
  | VFloat _ => "float"
  | VStr _ => "str"
  end.

(** The [TypeError] of a binary operator that neither operand supports. *)
Definition unsupported_operand (op : string) (a b : value) : exn :=
  TypeError ("unsupported operand type(s) for " +:+ op +:+ ": '"
             +:+ py_type a +:+ "' and '" +:+ py_type b +:+ "'").

(** The [TypeError] of an ordering test that neither operand supports. *)
Definition not_supported_between (op : string) (a b : value) : exn :=
  TypeError ("'" +:+ op +:+ "' not supported between instances of '"
             +:+ py_type a +:+ "' and '" +:+ py_type b +:+ "'").

(** The [TypeError] of a sequence repeated by something that is no [int]. *)
Definition non_int_repeat (count : value) : exn :=
  TypeError ("can't multiply sequence by non-int of type '"
             +:+ py_type count +:+ "'").

(** *** binary64 helpers *)

Definition Z2SF (n : Z) : spec_float := binary_normalize prec emax n 0 false.

(** [float(n)] for an [int]: round to nearest even, [OverflowError] beyond
    the largest double. *)
Definition float_of_Z (n : Z) : Exc float :=
  match Z2SF n with
  | S754_infinity _ => Raise (OverflowError "int too large to convert to float")
  | sf => Ok (SF2Prim sf)
  end.

(** The integer part of a finite double, towards zero. *)
Definition SF_trunc (s : bool) (m : positive) (e : Z) : Z :=
  let a := if 0 <=? e then Z.pos m * 2 ^ e else Z.pos m / 2 ^ (- e) in
  if s then - a else a.

(** [int(x)] for a [float]. *)
Definition int_of_float (x : float) : Exc Z :=
  match Prim2SF x with
  | S754_nan => Raise (ValueError "cannot convert float NaN to integer")
  | S754_infinity _ =>
      Raise (OverflowError "cannot convert float infinity to integer")
  | S754_zero _ => Ok 0
  | S754_finite s m e => Ok (SF_trunc s m e)
  end.

(** [a / b] on two [int]s: the quotient correctly rounded to a double. *)
Definition int_true_div (a b : Z) : Exc float :=
  if b =? 0 then Raise (ZeroDivisionError "division by zero")
  else
    let neg := xorb (a <? 0) (b <? 0) in
    match Z.abs a, Z.abs b with
    | Z.pos pa, Z.pos pb =>
        match SFdiv prec emax (S754_finite neg pa 0) (S754_finite false pb 0) with
        | S754_infinity _ =>
            Raise (OverflowError "integer division result too large for a float")
        | sf => Ok (SF2Prim sf)
        end
    | _, _ => Ok (if neg then neg_zero else zero)
    end.

(** Nearest integer to [n / d], ties to even ([0 < d]). *)
Definition round_half_even (n d : Z) : Z :=
  let q := n / d in
  let r := n mod d in
  match 2 * r ?= d with
  | Lt => q
  | Gt => q + 1
  | Eq => if Z.even q then q else q + 1
  end.

(** The double nearest to [n / p], for [0 <= n] and [0 < p], with the sign
    [s]. *)
Definition decimal_to_float (s : bool) (n p : Z) : float :=
  match n, p with
  | Z.pos pn, Z.pos pp =>
      SF2Prim (SFdiv prec emax (S754_finite s pn 0) (S754_finite false pp 0))
  | _, _ => if s then neg_zero else zero
  end.

(** [round(x, ndigits)] for a [float] and [0 <= ndigits]: the exact value
    of [x] is rounded half-even to [ndigits] decimals and the decimal is
    converted back to the nearest double; zeros, infinities and NaN are
    returned unchanged. *)
Definition round_float (x : float) (ndigits : nat) : float :=
  if (323 <? ndigits)%nat then x
  else
    match Prim2SF x with
    | S754_finite s m e =>
        let p := 10 ^ Z.of_nat ndigits in
        let n := if 0 <=? e then Z.pos m * 2 ^ e * p
                 else round_half_even (Z.pos m * p) (2 ^ (- e)) in
        decimal_to_float s n p
    | _ => x
    end.

(** Exact comparison of an [int] with a [float]; [None] when unordered. *)
Definition compare_Z_float (n : Z) (x : float) : option comparison :=
  match Prim2SF x with
  | S754_nan => None
  | S754_infinity s => Some (if s then Gt else Lt)
  | S754_zero _ => Some (n ?= 0)
  | S754_finite s m e =>
      let v := if s then Z.neg m else Z.pos m in
      Some (if 0 <=? e then n ?= v * 2 ^ e else n * 2 ^ (- e) ?= v)
  end.

Definition compare_float (x y : float) : option comparison :=
  match PrimFloat.compare x y with
  | FEq => Some Eq
  | FLt => Some Lt
  | FGt => Some Gt
  | FNotComparable => None
  end.

Definition num_compare (a b : num) : option comparison :=
  match a, b with
  | NInt x, NInt y => Some (x ?= y)
  | NFloat x, NFloat y => compare_float x y
  | NInt x, NFloat y => compare_Z_float x y
  | NFloat x, NInt y => option_map CompOpp (compare_Z_float y x)
  end.

Definition num_to_float (a : num) : Exc float :=
  match a with
  | NInt n => float_of_Z n
  | NFloat f => Ok f
  end.

(** *** Operators on values *)

(** [a - b] *)
Definition py_sub (a b : value) : Exc value :=
  match as_num a, as_num b with
  | Some (NInt x), Some (NInt y) => Ok (VInt (x - y))
  | Some x, Some y =>
      do fx <- num_to_float x;
      do fy <- num_to_float y;
      Ok (VFloat (fx - fy)%float)
  | _, _ => Raise (unsupported_operand "-" a b)
  end.

Fixpoint str_repeat (s : string) (n : nat) : string :=
  match n with
  | O => ""
  | S n' => s +:+ str_repeat s n'
  end.

(** [a * b]; a [str] times an [int] is repetition, a [str] times anything
    else is refused by the sequence. *)
Definition py_mul (a b : value) : Exc value :=
  match as_num a, as_num b with
  | Some (NInt x), Some (NInt y) => Ok (VInt (x * y))
  | Some x, Some y =>
      do fx <- num_to_float x;
      do fy <- num_to_float y;
      Ok (VFloat (fx * fy)%float)
  | Some (NInt x), None =>
      match b with
      | VStr s => Ok (VStr (str_repeat s (Z.to_nat x)))
      | _ => Raise (unsupported_operand "*" a b)
      end
  | None, Some (NInt y) =>
      match a with
      | VStr s => Ok (VStr (str_repeat s (Z.to_nat y)))
      | _ => Raise (unsupported_operand "*" a b)
      end
  | _, _ =>
      match a, b with
      | VStr _, _ => Raise (non_int_repeat b)
      | _, VStr _ => Raise (non_int_repeat a)
      | _, _ => Raise (unsupported_operand "*" a b)
      end
  end.

(** [a / b] *)
Definition py_truediv (a b : value) : Exc value :=
  match as_num a, as_num b with
  | Some (NInt x), Some (NInt y) =>
      do q <- int_true_div x y;
      Ok (VFloat q)
  | Some x, Some y =>
      do fx <- num_to_float x;
      do fy <- num_to_float y;
      if (fy =? 0)%float then Raise (ZeroDivisionError "float division by zero")
      else Ok (VFloat (fx / fy)%float)
  | _, _ => Raise (unsupported_operand "/" a b)
  end.

(** The ordering operators: numbers compare by exact value (NaN is
    unordered, every test on it is false), strings by code point, anything
    else raises [TypeError]. *)
Definition py_order (op : string) (test : comparison -> bool) (a b : value)
  : Exc bool :=
  match as_num a, as_num b with
  | Some x, Some y =>
      Ok (match num_compare x y with Some c => test c | None => false end)
  | _, _ =>
      match a, b with
      | VStr s, VStr t => Ok (test (String.compare s t))
      | _, _ => Raise (not_supported_between op a b)
      end
  end.

Definition is_Lt (c : comparison) : bool := if c is Lt then true else false.
Definition is_Gt (c : comparison) : bool := if c is Gt then true else false.

Definition py_lt : value -> value -> Exc bool := py_order "<" is_Lt.
Definition py_gt : value -> value -> Exc bool := py_order ">" is_Gt.
Definition py_le : value -> value -> Exc bool :=
  py_order "<=" (fun c => negb (is_Gt c)).
Definition py_ge : value -> value -> Exc bool :=
  py_order ">=" (fun c => negb (is_Lt c)).

(** [a == b] (never raises on scalars). *)
Definition py_eq (a b : value) : bool :=
  match as_num a, as_num b with
  | Some x, Some y => if num_compare x y is Some Eq then true else false
  | None, None =>
      match a, b with
      | VNone, VNone => true
      | VStr s, VStr t => String.eqb s t
      | _, _ => false
      end
  | _, _ => false
  end.

(** [max(a, b)] keeps [a] unless [b > a]; [min(a, b)] keeps [a] unless
    [b < a]. *)
Definition py_max (a b : value) : Exc value :=
  do c <- py_gt b a; Ok (if c then b else a).

Definition py_min (a b : value) : Exc value :=
  do c <- py_lt b a; Ok (if c then b else a).

(** [round(v, ndigits)] with [0 <= ndigits]: an [int] is its own rounding. *)
Definition py_round (v : value) (ndigits : nat) : Exc value :=
  match v with
  | VFloat f => Ok (VFloat (round_float f ndigits))
  | VInt n => Ok (VInt n)
  | VBool b => Ok (VInt (if b then 1 else 0))
  | VNone | VStr _ =>
      Raise (TypeError ("type " +:+ py_type v
                        +:+ " doesn't define __round__ method"))
  end.

(** ** Dictionaries

    A [dict] in insertion order. [d[k]] raises [KeyError], [d.get(k, v)]
    falls back to [v] only when the key is absent. *)

Definition pydict := list (string * value).

Definition dict_wf (d : pydict) : Prop := NoDup d.*1.

Fixpoint dict_lookup (k : string) (d : pydict) : option value :=
  match d with
  | [] => None
  | (k', v) :: d' => if String.eqb k k' then Some v else dict_lookup k d'
  end.

Definition dict_getitem (d : pydict) (k : string) : Exc value :=
  match dict_lookup k d with
  | Some v => Ok v
  | None => Raise (KeyError k)
  end.

Definition dict_get (d : pydict) (k : string) (default : value) : value :=
  match dict_lookup k d with Some v => v | None => default end.

(** [dict.items()] is the list itself. [sorted] on it compares tuples: the
    first components that differ decide, and equal keys hand the decision to
    the values, whose ordering may raise. The sort is written as a stable
    insertion sort; on keys that are pairwise distinct every stable
    comparison sort returns the same list. *)
Definition tuple_lt (a b : string * value) : Exc bool :=
  if String.eqb a.1 b.1 then
    if py_eq a.2 b.2 then Ok false else py_lt a.2 b.2
  else Ok (String.ltb a.1 b.1).

Fixpoint insert_item (x : string * value) (l : list (string * value))
  : Exc (list (string * value)) :=
  match l with
  | [] => Ok [x]
  | y :: l' =>
      do lt <- tuple_lt x y;
      if lt then Ok (x :: y :: l')
      else do r <- insert_item x l'; Ok (y :: r)
  end.

Fixpoint sorted (l : list (string * value)) : Exc (list (string * value)) :=
  match l with
  | [] => Ok []
  | x :: l' => do s <- sorted l'; insert_item x s
  end.

(** [random.choice(seq)] is [seq[randbelow(len(seq))]]; [i] is the raw
    draw. *)
Definition choice {A} (i : nat) (seq : list A) (d : A) : A :=
  nth (i mod length seq) seq d.

(** [np.max] over a row of doubles: empty input raises, NaN propagates. *)
Definition float_max (x y : float) : float :=
  if (is_nan x || is_nan y)%bool then nan
  else if (x <? y)%float then y else x.

Definition np_max (row : list float) : Exc float :=
  match row with
  | [] =>
      Raise (ValueError
               "zero-size array to reduction operation maximum which has no identity")
  | x :: rest => Ok (foldl float_max x rest)
  end.

(** ** Timestamps

    [pandas.to_datetime] on a scalar gives a [Timestamp] or [NaT]; the
    attributes of [NaT] are NaN. *)
Inductive pdtime :=
| Timestamp (hour dayofweek month : Z)
| NaT.

Definition dt_hour (t : pdtime) : value :=
  match t with Timestamp h _ _ => VInt h | NaT => VFloat nan end.
Definition dt_dayofweek (t : pdtime) : value :=
  match t with Timestamp _ d _ => VInt d | NaT => VFloat nan end.
Definition dt_month (t : pdtime) : value :=
  match t with Timestamp _ _ m => VInt m | NaT => VFloat nan end.

(** [lo <= x <= hi] *)
Definition between (lo : Z) (x : value) (hi : Z) : Exc bool :=
  do a <- py_le (VInt lo) x;
  if a then py_le x (VInt hi) else Ok false.

(** [6 <= hour <= 10 or 17 <= hour <= 21] *)
Definition peak_hours (hour : value) : Exc bool :=
  do a <- between 6 hour 10;
  if a then Ok true else between 17 hour 21.

(** ** Results, estimators, the cache service *)

(** The result dictionary; a key that a path does not set is [None]. *)
Record PredictionResult := {
  predicted_stage : Z;
  confidence_score : float;
  model_used : string;
  timestamp : string;
  features_used : option Z;
  deficit_ratio : option value;
  is_peak_hour : option bool;
  error : option string
}.

(** Row 0 of the 1 x n feature matrix. *)
Definition ndarray := list value.

(** A loaded artifact. [predict_proba] is [None] when the object has no such
    attribute; [predict_proba] and [predict] return row 0 of their result. *)
Record estimator := {
  predict_proba : option (ndarray -> Exc (list float));
  predict : ndarray -> Exc value;
  transform : ndarray -> Exc ndarray
}.

Record MLService := { models : gmap string estimator }.

(** [str] and [repr] of an [int], and so [json.dumps], raise [ValueError]
    on more than [sys.get_int_max_str_digits()] digits. *)
Definition int_max_str_digits : Z := 4300.

Definition int_str_ok (n : Z) : bool := Z.abs n <? 10 ^ int_max_str_digits.

Definition json_scalar_ok (v : value) : bool :=
  match v with
  | VInt n => int_str_ok n
  | VNone | VBool _ | VFloat _ | VStr _ => true
  end.

(** [json.dumps(value, default=str)] on a result. The text is represented
    by the result that [json.loads] reads back from it, which is the result
    itself: its strings, doubles (NaN and the infinities included),
    booleans and integers all survive the round trip. *)
Definition json_dumps (v : PredictionResult) : Exc PredictionResult :=
  if (int_str_ok (predicted_stage v)
      && from_option int_str_ok true (features_used v)
      && from_option json_scalar_ok true (deficit_ratio v))%bool
  then Ok v
  else Raise (ValueError "Exceeds the limit (4300 digits) for integer string conversion").

(** [sys.maxsize], and [len]: no list or array is longer, and [len] raises
    on a length above it. *)
Definition sys_maxsize : Z := 2 ^ 63 - 1.

Definition py_len {A} (l : list A) : Exc Z :=
  let n := Z.of_nat (length l) in
  if n <=? sys_maxsize then Ok n
  else Raise (OverflowError "cannot fit 'int' into an index-sized integer").

(** A Redis entry: the stored text, as the result [json.loads] makes of it,
    and the instant it expires. *)
Record entry := { e_value : PredictionResult; e_expires : Z }.

Record CacheService := {
  is_connected : bool;
  redis_client : gmap string entry
}.

(** What one call observes from outside the program: the clock (seconds),
    the draws of the [random] module, and whether the Redis server answers
    the read and the write of this call. *)
Record world := {
  now : Z;
  random_random : float;
  randbelow_shift : nat;
  randbelow_emergency : nat;
  redis_get_up : bool;
  redis_set_up : bool
}.

Definition redis_get (w : world) (store : gmap string entry) (key : string)
  : Exc (option PredictionResult) :=
  if redis_get_up w then
    Ok (match store !! key with
        | Some e => if now w <? e_expires e then Some (e_value e) else None
        | None => None
        end)
  else Raise (LibraryError "ConnectionError").

(** [SETEX]: the server refuses an expire time that is not positive. *)
Definition redis_setex (w : world) (store : gmap string entry) (key : string)
  (ttl : Z) (v : PredictionResult) : Exc (gmap string entry) :=
  if redis_set_up w then
    if 0 <? ttl
    then Ok (<[key := {| e_value := v; e_expires := now w + ttl |}]> store)
    else Raise (LibraryError "invalid expire time in 'setex' command")
  else Raise (LibraryError "ConnectionError").

(** [settings.CACHE_TTL] *)
Definition CACHE_TTL : Z := 300.

(** [CacheService.get] *)
Definition cache_get (self : CacheService) (w : world) (key : string)
  : Exc (option PredictionResult) :=
  if negb (is_connected self) then Ok None
  else
    try_except
      (do value <- redis_get w (redis_client self) key;
       match value with
       | Some v => Ok (Some v)
       | None => Ok None
       end)
      (fun e => Ok None).

(** [CacheService.set]: the flag returned and the service afterwards. *)
Definition cache_set (self : CacheService) (w : world) (key : string)
  (v : PredictionResult) (ttl : Z) : Exc (bool * CacheService) :=
  if negb (is_connected self) then Ok (false, self)
  else
    try_except
      (let ttl := if ttl =? 0 then CACHE_TTL else ttl in
       do text <- json_dumps v;
       do store <- redis_setex w (redis_client self) key ttl text;
       Ok (true, {| is_connected := is_connected self; redis_client := store |}))
      (fun e => Ok (false, self)).

(** ** The ML service *)

Section Service.

(** Decided by the interpreter and the libraries. *)
Variable hash : string -> Z.                     (* [hash(str)], seeded per process *)
Variable repr : value -> Exc string.             (* [repr] of a scalar *)
Variable to_datetime : value -> Exc pdtime.      (* [pandas.to_datetime] *)
Variable parse_int : string -> Exc Z.            (* [int(str)] *)
Variable isoformat : Z -> string.                (* [datetime.isoformat] *)

(** [int(v)] *)
Definition py_int (v : value) : Exc Z :=
  match v with
  | VInt n => Ok n
  | VBool b => Ok (if b then 1 else 0)
  | VFloat f => int_of_float f
  | VStr s => parse_int s
  | VNone =>
      Raise (TypeError
               "int() argument must be a string, a bytes-like object or a real number, not 'NoneType'")
  end.

(** [repr] of each pair, in order; the first [repr] that raises ends it. *)
Fixpoint items_reprs (items : list (string * value)) : Exc (list string) :=
  match items with
  | [] => Ok []
  | kv :: rest =>
      do k <- repr (VStr kv.1);
      do v <- repr kv.2;
      do texts <- items_reprs rest;
      Ok (("(" +:+ k +:+ ", " +:+ v +:+ ")") :: texts)
  end.

(** [str] of a list of pairs. *)
Definition items_str (items : list (string * value)) : Exc string :=
  do texts <- items_reprs items;
  Ok ("[" +:+ String.concat ", " texts +:+ "]").

(** [f"prediction:{hash(str(sorted(data.items())))}"], the statement
    before the [try] of [predict_loadshedding]. *)
Definition cache_key (data : pydict) : Exc string :=
  do items <- sorted data;
  do text <- items_str items;
  Ok ("prediction:" +:+ pretty (hash text)).

(** The vector returned when feature preparation fails. *)
Definition default_features : ndarray :=
  [VFloat 25.0; VFloat 60.0; VFloat 10.0; VFloat 30000.0; VFloat 28000.0;
   VFloat 1.5; VInt 12; VInt 1; VInt 6; VInt 0; VInt 1].

(** The body of [prepare_features] up to the scaling: the time features and
    the vector in its fixed order. The row is kept as the list handed to
    [np.array(features).reshape(1, -1)]: the conversion of its entries to
    the common dtype of the array is not part of this embedding, and what
    an [estimator] receives is this list. *)
Definition unscaled_features (data : pydict) : Exc ndarray :=
  do raw <- dict_getitem data "datetime";
  do dt <- to_datetime raw;
  let hour := dt_hour dt in
  let day_of_week := dt_dayofweek dt in
  let month := dt_month dt in
  do peak <- peak_hours hour;
  do weekday <- py_lt day_of_week (VInt 5);
  let features :=
    [dict_get data "temperature" (VFloat 25.0);
     dict_get data "humidity" (VFloat 60.0);
     dict_get data "wind_speed" (VFloat 10.0);
     dict_get data "demand_forecast" (VFloat 30000.0);
     dict_get data "generation_capacity" (VFloat 28000.0);
     dict_get data "historical_avg" (VFloat 1.5);
     hour;
     day_of_week;
     month;
     VInt (if peak then 1 else 0);
     VInt (if weekday then 1 else 0)] in
  Ok features.

Definition prepare_features (self : MLService) (data : pydict) : Exc ndarray :=
  try_except
    (do feature_array <- unscaled_features data;
     match models self !! "scaler" with
     | Some scaler => transform scaler feature_array
     | None => Ok feature_array
     end)
    (fun e => Ok default_features).

(** The threshold table of the rule-based estimator; the last row scales
    the ratio up. *)
Definition stage_of_ratio (adjusted_ratio : value) : Exc (Z * float) :=
  do c <- py_lt adjusted_ratio (VFloat 0.02);
  if c then Ok (0, 0.85%float) else
  do c <- py_lt adjusted_ratio (VFloat 0.05);
  if c then Ok (1, 0.75%float) else
  do c <- py_lt adjusted_ratio (VFloat 0.08);
  if c then Ok (2, 0.70%float) else
  do c <- py_lt adjusted_ratio (VFloat 0.12);
  if c then Ok (3, 0.65%float) else
  do c <- py_lt adjusted_ratio (VFloat 0.16);
  if c then Ok (4, 0.60%float) else
  do scaled <- py_mul adjusted_ratio (VInt 25);
  do k <- py_int scaled;
  Ok (Z.min 8 k, 0.55%float).

(** [adjusted_ratio], the quantity the thresholds read. *)
Definition adjusted_ratio_of (deficit_ratio : value) (is_peak : bool) : Exc value :=
  let peak_multiplier := VFloat (if is_peak then 1.3 else 1.0) in
  py_mul deficit_ratio peak_multiplier.

(** The result built in the [except] branch of [_fallback_prediction]. *)
Definition emergency_result (w : world) (e : exn) : PredictionResult :=
  {| predicted_stage := choice (randbelow_emergency w) [0; 1; 2; 2; 3] 0;
     confidence_score := 0.5;
     model_used := "emergency_fallback";
     timestamp := isoformat (now w);
     features_used := None;
     deficit_ratio := None;
     is_peak_hour := None;
     error := Some (exn_str e) |}.

(** The [try] body of [_fallback_prediction]: the rule-based estimator. *)
Definition rule_based_estimate (w : world) (data : pydict) : Exc PredictionResult :=
  let demand := dict_get data "demand_forecast" (VInt 30000) in
  let generation := dict_get data "generation_capacity" (VInt 28000) in
  do raw <- dict_getitem data "datetime";
  do dt <- to_datetime raw;
  let hour := dt_hour dt in
  do diff <- py_sub demand generation;
  do deficit <- py_max (VInt 0) diff;
  do positive <- py_gt demand (VInt 0);
  do deficit_ratio <-
    (if positive then py_truediv deficit demand else Ok (VInt 0));
  do is_peak <- peak_hours hour;
  do adjusted_ratio <- adjusted_ratio_of deficit_ratio is_peak;
  do sc <- stage_of_ratio adjusted_ratio;
  let (stage, confidence) :=
    if (random_random w <? 0.1)%float
    then (Z.max 0 (Z.min 8 (sc.1 + choice (randbelow_shift w) [-1; 1] 0)),
          (sc.2 * 0.9)%float)
    else sc in
  do rounded_ratio <- py_round deficit_ratio 4;
  Ok {| predicted_stage := stage;
        confidence_score := round_float confidence 3;
        model_used := "rule_based_fallback";
        timestamp := isoformat (now w);
        features_used := None;
        deficit_ratio := Some rounded_ratio;
        is_peak_hour := Some is_peak;
        error := None |}.

Definition _fallback_prediction (w : world) (data : pydict) : Exc PredictionResult :=
  try_except
    (rule_based_estimate w data)
    (fun e => Ok (emergency_result w e)).

(** One pass of the body of the [for] loop for a registered model. *)
Definition model_attempt (w : world) (model : estimator) (model_name : string)
  (features : ndarray) : Exc PredictionResult :=
  do pc <-
    match predict_proba model with
    | Some proba =>
        do probabilities <- proba features;
        do label <- predict model features;
        do predicted_stage <- py_int label;
        do confidence <- np_max probabilities;
        Ok (predicted_stage, confidence)
    | None =>
        do label <- predict model features;
        do predicted_stage <- py_int label;
        Ok (predicted_stage, 0.8%float)
    end;
  let predicted_stage := Z.max 0 (Z.min 8 pc.1) in
  do n_features <- py_len features;
  Ok {| predicted_stage := predicted_stage;
        confidence_score := round_float pc.2 3;
        model_used := model_name;
        timestamp := isoformat (now w);
        features_used := Some n_features;
        deficit_ratio := None;
        is_peak_hour := None;
        error := None |}.

(** The [for model_name in model_preferences] loop: [Some] is the
    [return] inside it, [None] is falling out of the loop. *)
Fixpoint try_models (self : MLService) (cache : CacheService) (w : world)
  (key : string) (features : ndarray) (model_preferences : list string)
  : Exc (option (PredictionResult * CacheService)) :=
  match model_preferences with
  | [] => Ok None
  | model_name :: rest =>
      match models self !! model_name with
      | Some model =>
          do attempt <-
            try_except
              (do result <- model_attempt w model model_name features;
               do written <- cache_set cache w key result 300;
               Ok (Some (result, written.2)))
              (fun e => Ok None);
          match attempt with
          | Some r => Ok (Some r)
          | None => try_models self cache w key features rest
          end
      | None => try_models self cache w key features rest
      end
  end.

Definition model_preferences : list string := ["xgboost"; "random_forest"].

Definition predict_loadshedding (self : MLService) (cache : CacheService)
  (w : world) (data : pydict) : Exc (PredictionResult * CacheService) :=
  do key <- cache_key data;
  do cached_result <- cache_get cache w key;
  match cached_result with
  | Some r => Ok (r, cache)
  | None =>
      try_except
        (do features <- prepare_features self data;
         do found <- try_models self cache w key features model_preferences;
         match found with
         | Some r => Ok r
         | None => do r <- _fallback_prediction w data; Ok (r, cache)
         end)
        (fun e => do r <- _fallback_prediction w data; Ok (r, cache))
  end.

(** *** Conditions named by the statements *)

(** The timestamp lookup or its parsing raises. *)
Definition datetime_fails (data : pydict) : Prop :=
  exists e, (do raw <- dict_getitem data "datetime"; to_datetime raw) = Raise e.

(** A scaler is registered and raises on the vector built from [data]. *)
Definition scaler_fails (self : MLService) (data : pydict) : Prop :=
  exists scaler features e,
    models self !! "scaler" = Some scaler /\
    unscaled_features data = Ok features /\
    transform scaler features = Raise e.

(** [name] is the first entry of the preference list that is registered
    and whose attempt returns, and [r] is what it returns. *)
Inductive first_success (self : MLService) (w : world) (features : ndarray)
  : list string -> string -> PredictionResult -> Prop :=
| first_here name rest model r :
    models self !! name = Some model ->
    model_attempt w model name features = Ok r ->
    first_success self w features (name :: rest) name r
| first_later skipped rest name r :
    (models self !! skipped = None \/
     exists model e, models self !! skipped = Some model /\
                     model_attempt w model skipped features = Raise e) ->
    first_success self w features rest name r ->
    first_success self w features (skipped :: rest) name r.

End Service.

(** ** Definitions used by the statements *)

(** Order of two items by key alone. *)
Definition key_lt (a b : string * value) : Prop := String.ltb a.1 b.1 = true.

(** The sort that looks at keys only. *)
Fixpoint insert_key (x : string * value) (l : list (string * value)) :=
  match l with
  | [] => [x]
  | y :: l' => if String.ltb x.1 y.1 then x :: y :: l' else y :: insert_key x l'
  end.

Definition sort_keys (l : list (string * value)) := foldr insert_key [] l.

(** The service after [set(key, r, ttl=300)] for a result [r] that
    [json.dumps] accepts, as every answer of a model is: the entry is stored
    when the service is connected and the server takes the write, and
    nothing changes otherwise. *)
Definition cache_after_write (cache : CacheService) (w : world) (key : string)
  (r : PredictionResult) : CacheService :=
  if (is_connected cache && redis_set_up w)%bool
  then {| is_connected := true;
          redis_client :=
            <[key := {| e_value := r; e_expires := now w + 300 |}]>
              (redis_client cache) |}
  else cache.

(** [p] lies in [0, 1]. *)
Definition probability (p : float) : Prop :=
  (0 <=? p)%float = true /\ (p <=? 1)%float = true.

(** The bounds a result has to respect. *)
Definition in_bounds (r : PredictionResult) : Prop :=
  0 <= predicted_stage r <= 8 /\ probability (confidence_score r).

(** Every registered estimator returns class probabilities in [0, 1]. *)
Definition probabilities_ok (self : MLService) : Prop :=
  forall name model proba features row,
    models self !! name = Some model ->
    predict_proba model = Some proba ->
    proba features = Ok row ->
    Forall probability row.

(** Every stored result respects the bounds. *)
Definition cache_bounded (cache : CacheService) : Prop :=
  forall key e, redis_client cache !! key = Some e -> in_bounds (e_value e).

(** No entry for [key] is live at the time of [w]. *)
Definition no_live_entry (cache : CacheService) (w : world) (key : string) : Prop :=
  forall e, redis_client cache !! key = Some e -> e_expires e <= now w.

(** The uniform draw of [w] does not trigger the perturbation. *)
Definition unperturbed (w : world) : Prop :=
  (random_random w <? 0.1)%float = false.

(** [probability] as a test. *)
Definition probabilityb (p : float) : bool := ((0 <=? p) && (p <=? 1))%float.

(** The confidences of the threshold table. *)
Definition confidence_levels : list float :=
  [0.85; 0.75; 0.70; 0.65; 0.60; 0.55]%float.

(** Two results agree on what the caller stores: strategy, stage and
    confidence. *)
Definition same_prediction (r1 r2 : PredictionResult) : Prop :=
  model_used r1 = model_used r2 /\
  predicted_stage r1 = predicted_stage r2 /\
  confidence_score r1 = confidence_score r2.

(** [d1 == d2] on two dictionaries: the same length, and every key of [d1]
    is in [d2] with a value that compares equal. *)
Definition dict_eq (d1 d2 : pydict) : bool :=
  (length d1 =? length d2)%nat
  && forallb (fun kv => match dict_lookup kv.1 d2 with
                        | Some v => py_eq kv.2 v
                        | None => false
                        end) d1.

Section Coherence.

Variable to_datetime : value -> Exc pdtime.
Variable parse_int : string -> Exc Z.
Variable isoformat : Z -> string.

(** [r] is what a model of [self] answered for [data] in some call: the
    results that [predict_loadshedding] stores under the key of [data]. *)
Definition answered_by (self : MLService) (data : pydict)
  (r : PredictionResult) : Prop :=
  exists features w0 name,
    prepare_features to_datetime self data = Ok features /\
    first_success parse_int isoformat self w0 features model_preferences name r.

(** Whatever is live under [key] at the time of [w] is such an answer:
    the entry was not left there for another record. *)
Definition coherent_entry (self : MLService) (data : pydict)
  (cache : CacheService) (w : world) (key : string) : Prop :=
  forall e, redis_client cache !! key = Some e -> now w < e_expires e ->
            answered_by self data (e_value e).

End Coherence.

(** The record that [create_prediction] and [create_batch_predictions]
    (routers/predictions.py) hand to the service; each argument is the value
    the router computed for that key. *)
Definition ml_input (location date_time temperature humidity wind_speed
  demand_forecast generation_capacity historical_avg : value) : pydict :=
  [("location", location);
   ("date_time", date_time);
   ("temperature", temperature);
   ("humidity", humidity);
   ("wind_speed", wind_speed);
   ("demand_forecast", demand_forecast);
   ("generation_capacity", generation_capacity);
   ("historical_avg", historical_avg)].

(** ** Concrete instances

    One choice of the interpreter-level functions and a few requests, used
    to run the definitions. *)
Module Sample.

Definition hash (s : string) : Z := Z.of_nat (String.length s) - 40.

(** Right on the values used below: integers (with the limit on their
    digits), doubles that hold an integer, plain strings. *)
Definition repr (v : value) : Exc string :=
  match v with
  | VNone => Ok "None"
  | VBool b => Ok (if b then "True" else "False")
  | VInt n =>
      if int_str_ok n then Ok (pretty n)
      else Raise (ValueError "Exceeds the limit (4300 digits) for integer string conversion")
  | VFloat f =>
      match int_of_float f with
      | Ok n => Ok (pretty n +:+ ".0")
      | Raise _ => Ok "nan"
      end
  | VStr s => Ok ("'" +:+ s +:+ "'")
  end.

(** Knows the two instants of the worked examples; [None] parses to
    [NaT]. *)
Definition to_datetime (v : value) : Exc pdtime :=
  match v with
  | VStr "2024-06-15T08:00" => Ok (Timestamp 8 5 6)
  | VStr "2024-06-15T02:00" => Ok (Timestamp 2 5 6)
  | VNone => Ok NaT
  | _ => Raise (LibraryError "Unknown datetime string format")
  end.

Definition parse_int (s : string) : Exc Z :=
  match s with
  | "3" => Ok 3
  | _ => Raise (ValueError ("invalid literal for int() with base 10: '" +:+ s +:+ "'"))
  end.

Definition isoformat (t : Z) : string := pretty t.

(** No perturbation: the uniform draw is above 0.1. *)
Definition calm : world :=
  {| now := 1000; random_random := 0.5; randbelow_shift := 1;
     randbelow_emergency := 3; redis_get_up := true; redis_set_up := true |}.

(** The perturbation fires and picks [+1]. *)
Definition noisy : world :=
  {| now := 1060; random_random := 0.05; randbelow_shift := 1;
     randbelow_emergency := 4; redis_get_up := true; redis_set_up := true |}.

Definition peak_request : pydict :=
  [("demand_forecast", VInt 31000);
   ("generation_capacity", VInt 28000);
   ("datetime", VStr "2024-06-15T08:00")].

Definition offpeak_request : pydict :=
  [("demand_forecast", VInt 31000);
   ("generation_capacity", VInt 28000);
   ("datetime", VStr "2024-06-15T02:00")].

(** [peak_request] with its fields in another order. *)
Definition peak_request_reordered : pydict :=
  [("datetime", VStr "2024-06-15T08:00");
   ("generation_capacity", VInt 28000);
   ("demand_forecast", VInt 31000)].

(** What the router sends: the timestamp sits under ["date_time"]. *)
Definition router_request : pydict :=
  ml_input (VStr "Johannesburg") (VStr "2024-06-15T08:00") (VFloat 25.0)
    (VFloat 60.0) (VFloat 10.0) (VInt 31000) (VInt 28000) (VFloat 1.5).

Definition no_models : MLService := {| models := ∅ |}.

(** A classifier with class probabilities that predicts stage 3. *)
Definition stage3_model : estimator :=
  {| predict_proba := Some (fun _ => Ok [0.25%float; 0.625%float; 0.125%float]);
     predict := fun _ => Ok (VInt 3);
     transform := fun _ => Raise (LibraryError "no attribute transform") |}.

(** A scaler that rejects every input. *)
Definition broken_scaler : estimator :=
  {| predict_proba := None;
     predict := fun _ => Raise (LibraryError "no attribute predict");
     transform := fun _ => Raise (LibraryError "X has 11 features, expected 10") |}.

Definition xgboost_only : MLService :=
  {| models := {[ "xgboost" := stage3_model ]} |}.

Definition scaler_only : MLService :=
  {| models := {[ "scaler" := broken_scaler ]} |}.

(** The vector of [peak_request] and what [stage3_model] answers on it at
    the time of [calm]. *)
Definition peak_features : ndarray :=
  [VFloat 25.0; VFloat 60.0; VFloat 10.0; VInt 31000; VInt 28000;
   VFloat 1.5; VInt 8; VInt 5; VInt 6; VInt 1; VInt 0].

Definition stage3_result : PredictionResult :=
  {| predicted_stage := 3;
     confidence_score := 0.625;
     model_used := "xgboost";
     timestamp := "1000";
     features_used := Some 11;
     deficit_ratio := None;
     is_peak_hour := None;
     error := None |}.

Definition connected : CacheService :=
  {| is_connected := true; redis_client := ∅ |}.

Definition disconnected : CacheService :=
  {| is_connected := false; redis_client := ∅ |}.


(** [peak_request] with the demand written as a [float]. *)
Definition peak_request_float : pydict :=
  [("demand_forecast", VFloat 31000);
   ("generation_capacity", VInt 28000);
   ("datetime", VStr "2024-06-15T08:00")].

(** A model without [predict_proba] whose label is the hour of the
    vector, and a service that has only this model. *)
Definition hour_model : estimator :=
  {| predict_proba := None;
     predict := fun features => Ok (nth 6 features VNone);
     transform := fun _ => Raise (LibraryError "no attribute transform") |}.

Definition hourly : MLService :=
  {| models := {[ "xgboost" := hour_model ]} |}.

(** Three instants around the expiry (at 1200) of an entry written at
    900. *)
Definition at_900 : world :=
  {| now := 900; random_random := 0.5; randbelow_shift := 1;
     randbelow_emergency := 3; redis_get_up := true; redis_set_up := true |}.

Definition at_1199 : world :=
  {| now := 1199; random_random := 0.5; randbelow_shift := 1;
     randbelow_emergency := 3; redis_get_up := true; redis_set_up := true |}.

Definition at_1201 : world :=
  {| now := 1201; random_random := 0.5; randbelow_shift := 1;
     randbelow_emergency := 3; redis_get_up := true; redis_set_up := true |}.

(** What [stage3_model] answered for [peak_request] at 900, and the cache
    that holds it until 1200. *)
Definition stage3_at_900 : PredictionResult :=
  {| predicted_stage := 3;
     confidence_score := 0.625;
     model_used := "xgboost";
     timestamp := "900";
     features_used := Some 11;
     deficit_ratio := None;
     is_peak_hour := None;
     error := None |}.

Definition warm : CacheService :=
  {| is_connected := true;
     redis_client :=
       {[ "prediction:54" := {| e_value := stage3_at_900; e_expires := 1200 |} ]} |}.

End Sample.

(** ** The rest of the cache service

    [CacheService.__init__], [delete], [clear_pattern] and [health_check].
    Each [_up] flag tells whether the server answers that one command. *)

(** [CacheService.__init__]: the service is connected when the first [ping]
    goes through, and keeps no client otherwise. [store] is what the server
    holds. *)
Definition CacheService_init (ping_up : bool) (store : gmap string entry)
  : Exc CacheService :=
  try_except
    (if ping_up
     then Ok {| is_connected := true; redis_client := store |}
     else Raise (LibraryError "ConnectionError"))
    (fun e => Ok {| is_connected := false; redis_client := ∅ |}).

(** [redis.delete] on a list of keys *)
Definition redis_delete (up : bool) (store : gmap string entry)
  (keys : list string) : Exc (gmap string entry) :=
  if up then Ok (foldr delete store keys)
  else Raise (LibraryError "ConnectionError").

(** [CacheService.delete] *)
Definition cache_delete (self : CacheService) (delete_up : bool) (key : string)
  : Exc (bool * CacheService) :=
  if negb (is_connected self) then Ok (false, self)
  else
    try_except
      (do store <- redis_delete delete_up (redis_client self) [key];
       Ok (true, {| is_connected := is_connected self; redis_client := store |}))
      (fun e => Ok (false, self)).

(** [CacheService.health_check]; [ping] is what [self.redis_client.ping()]
    does in this call: it answers, or raises the client's exception. *)
Definition health_check (self : CacheService) (ping : Exc bool) : Exc pydict :=
  try_except
    (if negb (is_connected self)
     then Ok [("status", VStr "disconnected"); ("error", VStr "Redis not connected")]
     else
       do pong <- ping;
       Ok [("status", VStr "healthy"); ("connection", VStr "active")])
    (fun e => Ok [("status", VStr "unhealthy"); ("error", VStr (exn_str e))]).

Section ClearPattern.

(** The glob matching of the Redis [KEYS] command: pattern, then key. *)
Variable glob : string -> string -> bool.

(** [redis.keys(pattern)]: the keys that match and have not expired. *)
Definition redis_keys (up : bool) (t : Z) (store : gmap string entry)
  (pattern : string) : Exc (list string) :=
  if up then
    Ok (map fst
          (List.filter (fun kv => glob pattern kv.1 && (t <? e_expires kv.2))
                       (map_to_list store)))
  else Raise (LibraryError "ConnectionError").

(** [CacheService.clear_pattern] at time [t]. *)
Definition clear_pattern (self : CacheService) (t : Z) (keys_up delete_up : bool)
  (pattern : string) : Exc (bool * CacheService) :=
  if negb (is_connected self) then Ok (false, self)
  else
    try_except
      (do keys <- redis_keys keys_up t (redis_client self) pattern;
       do store <-
         match keys with
         | [] => Ok (redis_client self)
         | _ :: _ => redis_delete delete_up (redis_client self) keys
         end;
       Ok (true, {| is_connected := is_connected self; redis_client := store |}))
      (fun e => Ok (false, self)).

End ClearPattern.

(** ** The rest of the ML service: loading and status *)

(** What sits at the path of an artifact: nothing ([os.path.exists] is
    false), a pickle that loads, or one on which [joblib.load] raises. *)
Inductive artifact :=
| Absent
| Loads (obj : estimator)
| Corrupt (e : exn).

(** The directory [settings.MODEL_PATH]. *)
Record model_dir := {
  xgboost_model_pkl : artifact;
  random_forest_model_pkl : artifact;
  scaler_pkl : artifact
}.

(** [if os.path.exists(path): self.models[name] = joblib.load(path)] *)
Definition load_artifact (name : string) (a : artifact)
  (registry : gmap string estimator) : Exc (gmap string estimator) :=
  match a with
  | Absent => Ok registry
  | Loads obj => Ok (<[name := obj]> registry)
  | Corrupt e => Raise e
  end.

(** [MLService.load_models]: one [try] around the three loads; its
    handler empties the registry. *)
Definition load_models (self : MLService) (dir : model_dir) : Exc MLService :=
  try_except
    (do r1 <- load_artifact "xgboost" (xgboost_model_pkl dir) (models self);
     do r2 <- load_artifact "random_forest" (random_forest_model_pkl dir) r1;
     do r3 <- load_artifact "scaler" (scaler_pkl dir) r2;
     Ok {| models := r3 |})
    (fun e => Ok {| models := ∅ |}).

(** [MLService.__init__] *)
Definition MLService_init (dir : model_dir) : Exc MLService :=
  load_models {| models := ∅ |} dir.

(** An entry of [status["model_details"]]. *)
Inductive model_detail :=
| Preprocessor
| Predictor (type : string) (has_predict_proba : bool).

(** The dictionary of [get_model_status]. The order of [available_models]
    is that of the registry's keys; a [gmap] keeps no insertion order, so
    only the members of the list are meaningful here. *)
Record model_status := {
  models_loaded : nat;
  available_models : list string;
  model_details : gmap string model_detail
}.

Section Status.

(** [type(model).__name__] *)
Variable type_name : estimator -> string.

(** [hasattr(model, 'predict_proba')] *)
Definition hasattr_predict_proba (model : estimator) : bool :=
  match predict_proba model with Some _ => true | None => false end.

(** [MLService.get_model_status] *)
Definition get_model_status (self : MLService) : model_status :=
  {| models_loaded := size (models self);
     available_models := (map_to_list (models self)).*1;
     model_details :=
       map_imap
         (fun model_name model =>
            Some (if String.eqb model_name "scaler" then Preprocessor
                  else Predictor (type_name model) (hasattr_predict_proba model)))
         (models self) |}.

End Status.

(** ** The health endpoint of [main.py] *)
Module Main.

(** What the database does during one call: opening the session, running
    [SELECT 1], closing the session. *)
Record db_session := {
  SessionLocal : Exc unit;
  execute : Exc unit;
  close : Exc unit
}.

(** [HealthResponse]; [ml_models] is the status dictionary or, from the
    outer handler, the text of the error. *)
Record HealthResponse := {
  status : string;
  timestamp : Z;
  database : string;
  cache : string;
  ml_models : model_status + string
}.

(** A field declared [str] takes a string and nothing else. *)
Definition str_field (v : value) : Exc string :=
  match v with
  | VStr s => Ok s
  | _ => Raise (LibraryError "ValidationError")
  end.

Section Health.

Variable type_name : estimator -> string.

(** [health_check] of [main.py] at time [t]. *)
Definition health_check (db : db_session) (cache_service : CacheService)
  (ping : Exc bool) (ml_service : MLService) (t : Z) : Exc HealthResponse :=
  try_except
    (do session <- SessionLocal db;
     do db_status <-
       (let db_status :=
          match execute db with
          | Ok _ => "healthy"
          | Raise e => "unhealthy: " +:+ exn_str e
          end in
        do closed <- close db;
        Ok db_status);
     do cache_health <- health_check cache_service ping;
     do cache_status <- dict_getitem cache_health "status";
     let ml_status := get_model_status type_name ml_service in
     let overall_status :=
       if String.eqb db_status "healthy"
          && (py_eq cache_status (VStr "healthy")
              || py_eq cache_status (VStr "disconnected"))
          && (0 <=? models_loaded ml_status)%nat
       then "healthy" else "unhealthy" in
     do cache_text <- str_field cache_status;
     Ok {| status := overall_status;
           timestamp := t;
           database := db_status;
           cache := cache_text;
           ml_models := inl ml_status |})
    (fun e =>
       Ok {| status := "unhealthy";
             timestamp := t;
             database := "unknown";
             cache := "unknown";
             ml_models := inr (exn_str e) |}).

End Health.

End Main.

(** What an artifact contributes to the registry when nothing fails. *)
Definition artifact_object (a : artifact) : option estimator :=
  match a with
  | Loads obj => Some obj
  | Absent | Corrupt _ => None
  end.

Definition is_corrupt (a : artifact) : bool :=
  match a with
  | Corrupt _ => true
  | Absent | Loads _ => false
  end.

(** ** Further scenarios *)

Module Scenario.

(** The server answers no command. *)
Definition offline : world :=
  {| now := 1000; random_random := 0.5; randbelow_shift := 0;
     randbelow_emergency := 0; redis_get_up := false; redis_set_up := false |}.

(** A matcher that knows the pattern [*] and literal keys. *)
Definition glob (pattern key : string) : bool :=
  if String.eqb pattern "*" then true else String.eqb pattern key.

Definition type_name (model : estimator) : string := "XGBClassifier".

Definition both_models : MLService :=
  {| models := <["random_forest" := Sample.broken_scaler]>
                 {[ "xgboost" := Sample.stage3_model ]} |}.

(** Generation above demand, the timestamp [None]. *)
Definition surplus_request : pydict :=
  [("demand_forecast", VInt 27000);
   ("generation_capacity", VInt 28000);
   ("datetime", VNone)].

(** The demand is present and [None]. *)
Definition null_demand_request : pydict :=
  [("demand_forecast", VNone);
   ("generation_capacity", VInt 28000);
   ("datetime", VStr "2024-06-15T08:00")].

(** The rule-based answer to [Sample.peak_request] at the time of
    [Sample.calm]. *)
Definition peak_estimate : PredictionResult :=
  {| predicted_stage := 4;
     confidence_score := 0.6;
     model_used := "rule_based_fallback";
     timestamp := "1000";
     features_used := None;
     deficit_ratio := Some (VFloat 0.0968);
     is_peak_hour := Some true;
     error := None |}.

(** The scaler pickle is damaged. *)
Definition damaged_scaler_dir : model_dir :=
  {| xgboost_model_pkl := Loads Sample.stage3_model;
     random_forest_model_pkl := Absent;
     scaler_pkl := Corrupt (LibraryError "UnpicklingError") |}.

(** A result that [json.dumps] refuses: its stage has 5001 digits. *)
Definition unserialisable : PredictionResult :=
  {| predicted_stage := 10 ^ 5000;
     confidence_score := 0.5;
     model_used := "xgboost";
     timestamp := "1000";
     features_used := Some 11;
     deficit_ratio := None;
     is_peak_hour := None;
     error := None |}.

(** What redis-py raises when nothing listens on the port. *)
Definition connection_refused : exn :=
  LibraryError "Error 111 connecting to localhost:6379. Connection refused.".

(** The cache after [Sample.stage3_result] was stored for the peak-hour
    request. *)
Definition stored : CacheService :=
  cache_after_write Sample.connected Sample.calm "prediction:54"
    Sample.stage3_result.

End Scenario.

(** * Properties *)

(** ** The error monad *)

Lemma bind_Ok {A B} (m : Exc A) (k : A -> Exc B) b :
  bind m k = Ok b -> exists a, m = Ok a /\ k a = Ok b.
Proof. destruct m; simpl; [eauto | discriminate]. Qed.

Lemma try_except_total {A} (body : Exc A) (handler : exn -> Exc A) :
  (forall e, exists a, handler e = Ok a) ->
  exists a, try_except body handler = Ok a.
Proof. intros H. destruct body as [a|e]; simpl; eauto. Qed.

(** ** Ordering of keys and the sort behind the cache key *)

Lemma ltb_le_ne s t : String.ltb s t = true <-> String.le s t /\ s <> t.
Proof.
  unfold String.le, String.ltb, String.leb. split.
  - destruct (String.compare s t) eqn:E; [done| |done]. intros _. split; [done|].
    intros ->.
    assert (String.compare t t = Eq) as Ht; [|congruence].
    pose proof (String.compare_antisym t t) as Ha.
    destruct (String.compare t t); [done|discriminate..].
  - intros [Hle Hne]. destruct (String.compare s t) eqn:E; [|done|done].
    apply String.compare_eq_iff in E. done.
Qed.

Lemma ltb_trans s t u :
  String.ltb s t = true -> String.ltb t u = true -> String.ltb s u = true.
Proof.
  rewrite !ltb_le_ne. intros [H1 N1] [H2 N2]. split; [by etrans|].
  intros ->. apply N1. by apply (anti_symm String.le).
Qed.

Lemma ltb_asym s t : String.ltb s t = true -> String.ltb t s = true -> False.
Proof.
  rewrite !ltb_le_ne. intros [H1 N1] [H2 _]. apply N1. by apply (anti_symm String.le).
Qed.

Lemma ltb_total s t : s <> t -> String.ltb s t = false -> String.ltb t s = true.
Proof.
  intros Hne Hlt. apply ltb_le_ne. split; [|done].
  destruct (total String.le s t) as [H|H]; [|done].
  assert (String.ltb s t = true) by (by apply ltb_le_ne). congruence.
Qed.

#[local] Instance key_lt_trans : Transitive key_lt.
Proof. intros a b c. unfold key_lt. apply ltb_trans. Qed.


Lemma insert_key_perm x l : insert_key x l ≡ₚ x :: l.
Proof.
  induction l as [|y l IH]; simpl; [done|].
  destruct (String.ltb x.1 y.1); [done|]. rewrite IH. apply Permutation_swap.
Qed.

Lemma sort_keys_perm l : sort_keys l ≡ₚ l.
Proof.
  induction l as [|x l IH]; simpl; [done|]. by rewrite insert_key_perm, IH.
Qed.

Lemma tuple_lt_distinct a b :
  a.1 <> b.1 -> tuple_lt a b = Ok (String.ltb a.1 b.1).
Proof.
  intros Hne. unfold tuple_lt. destruct (String.eqb_spec a.1 b.1); done.
Qed.

Lemma insert_item_keys x l :
  x.1 ∉ l.*1 -> insert_item x l = Ok (insert_key x l).
Proof.
  induction l as [|y l IH]; simpl; intros Hx; [done|].
  rewrite not_elem_of_cons in Hx. destruct Hx as [Hne Hx].
  rewrite tuple_lt_distinct by done. simpl.
  destruct (String.ltb x.1 y.1); [done|]. by rewrite IH.
Qed.

Lemma sorted_keys l : NoDup l.*1 -> sorted l = Ok (sort_keys l).
Proof.
  induction l as [|x l IH]; simpl; intros Hnd; [done|].
  apply NoDup_cons in Hnd as [Hx Hnd]. rewrite IH by done. simpl.
  apply insert_item_keys. by rewrite sort_keys_perm.
Qed.

Lemma insert_key_sorted x l :
  x.1 ∉ l.*1 -> StronglySorted key_lt l -> StronglySorted key_lt (insert_key x l).
Proof.
  induction l as [|y l IH]; simpl; intros Hx Hs.
  { repeat constructor. }
  rewrite not_elem_of_cons in Hx. destruct Hx as [Hne Hx].
  apply StronglySorted_inv in Hs as [Hs Hy].
  destruct (String.ltb x.1 y.1) eqn:E.
  - constructor; [by constructor|]. constructor; [done|].
    eapply Forall_impl; [exact Hy|]. intros z Hz. by etrans.
  - constructor; [by apply IH|]. rewrite insert_key_perm.
    constructor; [|done]. by apply ltb_total.
Qed.

Lemma sort_keys_sorted l : NoDup l.*1 -> StronglySorted key_lt (sort_keys l).
Proof.
  induction l as [|x l IH]; simpl; intros Hnd; [constructor|].
  apply NoDup_cons in Hnd as [Hx Hnd].
  apply insert_key_sorted; [by rewrite sort_keys_perm | by apply IH].
Qed.

Lemma sort_keys_order_free d1 d2 :
  NoDup d1.*1 -> d1 ≡ₚ d2 -> sort_keys d1 = sort_keys d2.
Proof.
  intros Hnd Hp.
  assert (NoDup d2.*1) by (by rewrite <- Hp).
  apply (StronglySorted_unique_strong key_lt).
  - intros a b _ _ Hab Hba. destruct (ltb_asym _ _ Hab Hba).
  - by apply sort_keys_sorted.
  - by apply sort_keys_sorted.
  - by rewrite !sort_keys_perm.
Qed.

(** ** binary64 facts *)

Lemma digits2_pos_bound m : Z.pos m < 2 ^ Z.pos (digits2_pos m).
Proof.
  induction m as [m IH|m IH|]; cbn [digits2_pos]; [| |done].
  - rewrite Pos2Z.inj_succ, Z.pow_succ_r by lia. lia.
  - rewrite Pos2Z.inj_succ, Z.pow_succ_r by lia. lia.
Qed.

(** The mantissa of a double has at most 53 bits. *)
Lemma Prim2SF_mantissa x s m e :
  Prim2SF x = S754_finite s m e -> Z.pos m < 2 ^ 53.
Proof.
  intros Hx. pose proof (Prim2SF_valid x) as Hv. rewrite Hx in Hv.
  unfold valid_binary, bounded, canonical_mantissa, fexp in Hv.
  apply andb_prop in Hv as [Hc _]. apply Z.eqb_eq in Hc.
  pose proof (digits2_pos_bound m) as Hd.
  assert (Z.pos (digits2_pos m) <= 53) as Hle by (unfold prec in Hc; lia).
  eapply Z.lt_le_trans; [exact Hd|]. apply Z.pow_le_mono_r; lia.
Qed.

Lemma SFcompare_refl x : x <> S754_nan -> SFcompare x x = Some Eq.
Proof.
  destruct x as [s|s| |s m e]; intros Hx; cbn; [done|by destruct s|done|].
  rewrite Z.compare_refl, Pos.compare_cont_refl. by destruct s.
Qed.

Lemma leb_not_nan x y :
  (x <=? y)%float = true -> is_nan x = false /\ is_nan y = false.
Proof.
  rewrite FloatAxioms.leb_spec. unfold is_nan. rewrite !FloatAxioms.eqb_spec. unfold SFleb, SFeqb.
  intros H. split.
  - rewrite SFcompare_refl; [done|]. intros Hn. by rewrite Hn in H.
  - rewrite SFcompare_refl; [done|]. intros Hn. rewrite Hn in H.
    by destruct (Prim2SF x).
Qed.

Lemma probability_not_nan p : probability p -> is_nan p = false.
Proof. intros [H _]. by apply leb_not_nan in H as [_ ?]. Qed.

Lemma probabilityb_spec p : probabilityb p = true <-> probability p.
Proof. unfold probabilityb, probability. by rewrite andb_true_iff. Qed.

Lemma float_max_probability x y :
  probability x -> probability y -> probability (float_max x y).
Proof.
  intros Hx Hy. unfold float_max.
  rewrite (probability_not_nan x), (probability_not_nan y) by done.
  cbn [orb]. by destruct (x <? y)%float.
Qed.

Lemma np_max_probability row c :
  Forall probability row -> np_max row = Ok c -> probability c.
Proof.
  destruct row as [|x rest]; [done|]. cbn [np_max].
  intros Hrow [= <-]. apply Forall_cons in Hrow as [Hx Hrest].
  revert x Hx. induction Hrest as [|y rest Hy _ IH]; intros x Hx; [done|].
  cbn [foldl]. apply IH. by apply float_max_probability.
Qed.

(** *** The order of binary64 and the largest element of a row *)

Ltac cmp_cases :=
  repeat match goal with
         | |- context [Z.compare ?a ?b] => destruct (Z.compare_spec a b)
         | |- context [Pos.compare ?a ?b] => destruct (Pos.compare_spec a b)
         end.

Lemma SFleb_trans x y z :
  SFleb x y = true -> SFleb y z = true -> SFleb x z = true.
Proof.
  unfold SFleb.
  destruct x as [sx|sx| |sx mx ex], y as [sy|sy| |sy my ey],
           z as [sz|sz| |sz mz ez]; cbn [SFcompare]; try done;
    try destruct sx; try destruct sy; try destruct sz; try done;
    rewrite ?Pos.compare_cont_spec; unfold Pos.switch_Eq;
    cmp_cases; cbn [CompOpp]; try done; lia.
Qed.

Lemma SFleb_total x y :
  x <> S754_nan -> y <> S754_nan -> SFltb x y = false -> SFleb y x = true.
Proof.
  unfold SFleb, SFltb.
  destruct x as [sx|sx| |sx mx ex], y as [sy|sy| |sy my ey]; cbn [SFcompare];
    try done; try destruct sx; try destruct sy; try done;
    rewrite ?Pos.compare_cont_spec; unfold Pos.switch_Eq;
    cmp_cases; cbn [CompOpp]; try done; lia.
Qed.

Lemma SFltb_leb x y : SFltb x y = true -> SFleb x y = true.
Proof. unfold SFleb, SFltb. by destruct (SFcompare x y) as [[]|]. Qed.

Lemma not_nan_Prim2SF x : is_nan x = false -> Prim2SF x <> S754_nan.
Proof.
  unfold is_nan. rewrite FloatAxioms.eqb_spec. unfold SFeqb.
  intros H Hn. by rewrite Hn in H.
Qed.

Lemma float_leb_refl x : is_nan x = false -> (x <=? x)%float = true.
Proof.
  intros H%not_nan_Prim2SF. rewrite FloatAxioms.leb_spec. unfold SFleb.
  by rewrite SFcompare_refl.
Qed.

Lemma float_leb_trans x y z :
  (x <=? y)%float = true -> (y <=? z)%float = true -> (x <=? z)%float = true.
Proof. rewrite !FloatAxioms.leb_spec. apply SFleb_trans. Qed.

Lemma float_max_upper x y :
  is_nan x = false -> is_nan y = false ->
  (float_max x y = x \/ float_max x y = y) /\
  (x <=? float_max x y)%float = true /\ (y <=? float_max x y)%float = true.
Proof.
  intros Hx Hy. unfold float_max. rewrite Hx, Hy. cbn [orb].
  destruct (x <? y)%float eqn:E.
  - split; [by right|]. split; [|by apply float_leb_refl].
    rewrite FloatAxioms.leb_spec. apply SFltb_leb. by rewrite <- FloatAxioms.ltb_spec.
  - split; [by left|]. split; [by apply float_leb_refl|].
    rewrite FloatAxioms.leb_spec. rewrite FloatAxioms.ltb_spec in E.
    by apply SFleb_total; [apply not_nan_Prim2SF..|].
Qed.

Lemma foldl_float_max x rest :
  is_nan x = false -> Forall (fun p => is_nan p = false) rest ->
  let c := foldl float_max x rest in
  is_nan c = false /\ c ∈ x :: rest /\
  Forall (fun p => (p <=? c)%float = true) (x :: rest).
Proof.
  intros Hx Hrest. revert x Hx.
  induction Hrest as [|y rest Hy _ IH]; intros x Hx; cbn [foldl].
  - split; [done|]. split; [left|]. repeat constructor. by apply float_leb_refl.
  - destruct (float_max_upper x y Hx Hy) as (Hsel & Hxm & Hym).
    assert (is_nan (float_max x y) = false) as Hm by (by destruct Hsel as [-> | ->]).
    destruct (IH _ Hm) as (Hc & Hin & Hall).
    apply Forall_cons in Hall as [Hmc Hall].
    split; [done|]. split.
    + apply elem_of_cons in Hin as [-> | Hin].
      * destruct Hsel as [-> | ->]; [left | right; left].
      * by do 2 right.
    + repeat constructor; [by eapply float_leb_trans..|done].
Qed.

(** On a row without NaN, [np_max] returns an element of the row that no
    element exceeds. *)
Lemma np_max_greatest row c :
  Forall (fun p => is_nan p = false) row -> np_max row = Ok c ->
  c ∈ row /\ Forall (fun p => (p <=? c)%float = true) row.
Proof.
  destruct row as [|x rest]; [done|]. cbn [np_max].
  intros [Hx Hrest]%Forall_cons [= <-].
  by destruct (foldl_float_max x rest Hx Hrest) as (_ & ? & ?).
Qed.

Lemma round_half_even_bound n d k :
  0 < d -> 0 <= n <= k * d -> 0 <= round_half_even n d <= k.
Proof.
  intros Hd [Hn Hk]. unfold round_half_even.
  pose proof (Z.div_mod n d ltac:(lia)) as Hdm.
  pose proof (Z.mod_pos_bound n d Hd) as Hr.
  assert (0 <= n / d) as Hq by (apply Z.div_pos; lia).
  assert (n / d <= k) as Hqk by (apply Z.div_le_upper_bound; lia).
  assert (n / d = k -> n mod d = 0) as Htop by nia.
  set (q := n / d) in *. set (r := n mod d) in *.
  destruct (2 * r ?= d) eqn:E.
  - apply Z.compare_eq in E. destruct (Z.even q); lia.
  - lia.
  - apply Z.compare_gt_iff in E. lia.
Qed.

(** The doubles nearest to [n / 1000] for [n = 0 .. 1000] lie in [0, 1]. *)
Lemma thousandths_probability n :
  0 <= n <= 1000 -> probability (decimal_to_float false n 1000).
Proof.
  intros Hn. apply probabilityb_spec.
  assert (forallb (fun k => probabilityb (decimal_to_float false (Z.of_nat k) 1000))
            (seq 0 1001) = true) as Hall by (vm_compute; reflexivity).
  rewrite forallb_forall in Hall.
  specialize (Hall (Z.to_nat n)). rewrite Z2Nat.id in Hall by lia.
  apply Hall, in_seq. lia.
Qed.

Lemma Prim2SF_zero : Prim2SF 0 = S754_zero false.
Proof. vm_compute. reflexivity. Qed.

Lemma Prim2SF_one : Prim2SF 1 = S754_finite false 4503599627370496 (-52).
Proof. vm_compute. reflexivity. Qed.

Lemma pow2_52 : 2 ^ 52 = 4503599627370496.
Proof. vm_compute. reflexivity. Qed.

(** A double that is at most [1.0] is [m * 2 ^ e] with [m <= 2 ^ (- e)]. *)
Lemma SFleb_one m e :
  Z.pos m < 2 ^ 53 ->
  SFleb (S754_finite false m e) (S754_finite false 4503599627370496 (-52)) = true ->
  e < 0 /\ Z.pos m <= 2 ^ (- e).
Proof.
  intros Hm. unfold SFleb. cbn [SFcompare].
  destruct (e ?= -52) eqn:E.
  - apply Z.compare_eq in E. subst e. rewrite Pos.compare_cont_spec.
    unfold Pos.switch_Eq. intros H. split; [done|].
    replace (- -52) with 52 by reflexivity. rewrite pow2_52.
    destruct (Pos.compare m 4503599627370496) eqn:E'; [| |done].
    + apply Pos.compare_eq in E'. subst m. apply Z.le_refl.
    + apply Z.lt_le_incl. exact E'.
  - intros _. assert (e < -52) as Hlt by exact E. split; [lia|].
    apply Z.lt_le_incl. eapply Z.lt_le_trans; [exact Hm|].
    apply Z.pow_le_mono_r; lia.
  - done.
Qed.

(** Rounding a probability to three decimals gives a probability. *)
Lemma round_float_probability c :
  probability c -> probability (round_float c 3).
Proof.
  intros Hc. unfold round_float. cbn [Nat.ltb Nat.leb].
  destruct (Prim2SF c) as [| | |s m e] eqn:Hsf; [done..|].
  destruct Hc as [H0 H1]. rewrite FloatAxioms.leb_spec, Hsf in H0, H1.
  rewrite Prim2SF_zero in H0. rewrite Prim2SF_one in H1.
  destruct s; [discriminate H0|].
  pose proof (Prim2SF_mantissa c _ _ _ Hsf) as Hm.
  destruct (SFleb_one m e Hm H1) as [He Hle].
  replace (10 ^ Z.of_nat 3) with 1000 by reflexivity. cbv zeta.
  destruct (0 <=? e) eqn:E0; [apply Z.leb_le in E0; lia|].
  apply thousandths_probability. apply round_half_even_bound; [|lia].
  apply Z.pow_pos_nonneg; [done|]. apply Z.opp_nonneg_nonpos, Z.lt_le_incl, He.
Qed.

(** *** The threshold table *)

Lemma py_lt_float a c : py_lt (VFloat a) (VFloat c) = Ok (a <? c)%float.
Proof.
  unfold py_lt, py_order, as_num, num_compare, compare_float.
  rewrite FloatAxioms.compare_spec, FloatAxioms.ltb_spec. unfold SFltb.
  by destruct (SFcompare (Prim2SF a) (Prim2SF c)) as [[]|].
Qed.

Lemma float_of_Z_25 : float_of_Z 25 = Ok 25%float.
Proof. vm_compute. reflexivity. Qed.

Lemma Prim2SF_25 : Prim2SF 25 = S754_finite false 7036874417766400 (-48).
Proof. vm_compute. reflexivity. Qed.

Lemma Prim2SF_016 : Prim2SF 0.16 = S754_finite false 5764607523034235 (-55).
Proof. vm_compute. reflexivity. Qed.

Lemma py_mul_25 a : py_mul (VFloat a) (VInt 25) = Ok (VFloat (a * 25)%float).
Proof.
  unfold py_mul, as_num, num_to_float. by rewrite float_of_Z_25.
Qed.

Lemma binary_round_aux_positive m e l :
  match binary_round_aux prec emax false m e l with
  | S754_zero s | S754_infinity s | S754_finite s _ _ => s = false
  | S754_nan => True
  end.
Proof.
  unfold binary_round_aux.
  destruct (shr_fexp prec emax m e l) as [mrs' e'].
  destruct (shr_fexp prec emax _ e' loc_Exact) as [mrs'' e''].
  destruct (shr_m mrs''); [done| |done].
  by destruct (e'' <=? emax - prec).
Qed.

Lemma SF_trunc_nonneg m e : 0 <= SF_trunc false m e.
Proof.
  unfold SF_trunc. destruct (0 <=? e) eqn:E.
  - apply Z.leb_le in E. apply Z.mul_nonneg_nonneg; [done|].
    by apply Z.pow_nonneg.
  - apply Z.leb_gt in E. apply Z.div_pos; [done|]. apply Z.pow_pos_nonneg; lia.
Qed.

(** Past the last threshold the scaled ratio truncates to a non-negative
    integer whenever the conversion succeeds. *)
Lemma scaled_ratio_nonneg a k :
  (a <? 0.16)%float = false -> int_of_float (a * 25) = Ok k -> 0 <= k.
Proof.
  rewrite FloatAxioms.ltb_spec, Prim2SF_016. unfold int_of_float.
  rewrite mul_spec, Prim2SF_25. unfold SF64mul, SFltb.
  destruct (Prim2SF a) as [s|s| |s m e]; cbn [SFcompare SFmul xorb].
  - done.
  - by destruct s.
  - done.
  - destruct s; [done|]. intros _. cbn [xorb].
    pose proof (binary_round_aux_positive
                  (Z.pos (m * 7036874417766400)) (e + -48) loc_Exact) as Hs.
    destruct (binary_round_aux prec emax false _ _ _) as [s|s| |s m' e'];
      intros Hk; try discriminate Hk; injection Hk as <-; [done|].
    subst s. apply SF_trunc_nonneg.
Qed.

Lemma confidence_levels_probability c :
  c ∈ confidence_levels ->
  probability (round_float c 3) /\ probability (round_float (c * 0.9) 3).
Proof.
  assert (forallb (fun c => probabilityb (round_float c 3) &&
                            probabilityb (round_float (c * 0.9) 3))
            confidence_levels = true) as Hall by (vm_compute; reflexivity).
  rewrite forallb_forall in Hall. intros Hc%list_elem_of_In.
  apply Hall in Hc. apply andb_prop in Hc as [H1 H2].
  by rewrite <- !probabilityb_spec.
Qed.

(** ** The pipeline *)

Section Correctness.

Variable hash : string -> Z.
Variable repr : value -> Exc string.
Variable to_datetime : value -> Exc pdtime.
Variable parse_int : string -> Exc Z.
Variable isoformat : Z -> string.

Local Abbreviation cache_key := (cache_key hash repr).
Local Abbreviation unscaled_features := (unscaled_features to_datetime).
Local Abbreviation prepare_features := (prepare_features to_datetime).
Local Abbreviation rule_based_estimate :=
  (rule_based_estimate to_datetime parse_int isoformat).
Local Abbreviation _fallback_prediction :=
  (_fallback_prediction to_datetime parse_int isoformat).
Local Abbreviation emergency_result := (emergency_result isoformat).
Local Abbreviation model_attempt := (model_attempt parse_int isoformat).
Local Abbreviation try_models := (try_models parse_int isoformat).
Local Abbreviation predict_loadshedding :=
  (predict_loadshedding hash repr to_datetime parse_int isoformat).
Local Abbreviation datetime_fails := (datetime_fails to_datetime).
Local Abbreviation scaler_fails := (scaler_fails to_datetime).
Local Abbreviation answered_by := (answered_by to_datetime parse_int isoformat).
Local Abbreviation coherent_entry :=
  (coherent_entry to_datetime parse_int isoformat).

(** *** Cache key *)

Lemma cache_key_sorted data :
  dict_wf data ->
  cache_key data =
    (do text <- items_str repr (sort_keys data);
     Ok ("prediction:" +:+ pretty (hash text))).
Proof. intros Hwf. unfold cache_key. by rewrite sorted_keys. Qed.

Lemma cache_key_same_map (d1 d2 : pydict) :
  dict_wf d1 -> dict_wf d2 ->
  (list_to_map d1 : gmap string value) = list_to_map d2 ->
  cache_key d1 = cache_key d2.
Proof.
  intros H1 H2 Heq.
  assert (d1 ≡ₚ d2) as Hp by (by apply (list_to_map_inj (M := gmap string))).
  rewrite !cache_key_sorted by done.
  by rewrite (sort_keys_order_free d1 d2).
Qed.

(** C9, as the code has it. The cache key is a function of the sorted
    items of the record and of their [repr]: two records with distinct
    keys that hold the same value, of the same type, under every key,
    whatever the order in which their fields were inserted, make line 89
    end the same way, with the same key or with the same exception (the
    [repr] of a value can raise). Equality here is identity of the values;
    [==] of Python is coarser, and records that are equal under it need not
    share a key. *)
Theorem cache_key_order_insensitive (d1 d2 : pydict) :
  dict_wf d1 -> dict_wf d2 ->
  (list_to_map d1 : gmap string value) = list_to_map d2 ->
  cache_key d1 = cache_key d2 /\
  (forall key, cache_key d1 = Ok key <-> cache_key d2 = Ok key) /\
  (forall e, cache_key d1 = Raise e <-> cache_key d2 = Raise e).
Proof.
  intros H1 H2 Heq.
  assert (cache_key d1 = cache_key d2) as Hk by (by apply cache_key_same_map).
  split; [done|]. by rewrite Hk.
Qed.

(** *** Feature preparation *)

Lemma prepare_features_total self data :
  exists features, prepare_features self data = Ok features.
Proof. apply try_except_total. eauto. Qed.


(** C8. When the timestamp lookup or its parsing raises, or the registered
    scaler raises, [prepare_features] does not raise: it returns exactly
    the default vector, which has 11 elements. *)
Theorem prepare_features_recovers self data :
  datetime_fails data \/ scaler_fails self data ->
  prepare_features self data = Ok default_features /\
  default_features =
    [VFloat 25.0; VFloat 60.0; VFloat 10.0; VFloat 30000.0; VFloat 28000.0;
     VFloat 1.5; VInt 12; VInt 1; VInt 6; VInt 0; VInt 1] /\
  length default_features = 11%nat.
Proof.
  intros H. split; [|done].
  unfold prepare_features, unscaled_features.
  destruct H as [[e He] | (scaler & features & e & Hs & Hf & He)].
  - destruct (dict_getitem data "datetime") as [raw|]; simpl in *; [|done].
    by rewrite He.
  - unfold unscaled_features in Hf. rewrite Hf. simpl.
    by rewrite Hs, He.
Qed.

(** *** The rule-based estimator and the emergency default *)

Lemma fallback_total w data :
  exists r, _fallback_prediction w data = Ok r.
Proof. apply try_except_total. eauto. Qed.

Lemma fallback_cases w data r :
  _fallback_prediction w data = Ok r ->
  rule_based_estimate w data = Ok r \/
  exists e, rule_based_estimate w data = Raise e /\ r = emergency_result w e.
Proof.
  unfold _fallback_prediction.
  destruct (rule_based_estimate w data) as [r'|e]; simpl; intros [= <-]; eauto.
Qed.

Lemma rule_based_model_used w data r :
  rule_based_estimate w data = Ok r -> model_used r = "rule_based_fallback".
Proof.
  unfold rule_based_estimate. intros H.
  repeat (apply bind_Ok in H as (? & _ & H)).
  destruct (if (random_random w <? 0.1)%float then _ else _) as [stage confidence].
  apply bind_Ok in H as (? & _ & H). by inversion H.
Qed.

Lemma fallback_model_used w data r :
  _fallback_prediction w data = Ok r ->
  model_used r = "rule_based_fallback" \/ model_used r = "emergency_fallback".
Proof.
  intros [H | (e & _ & ->)]%fallback_cases; [left|by right].
  by eapply rule_based_model_used.
Qed.

(** C10. A record without the key ["datetime"] makes [prepare_features]
    return the default vector and makes [_fallback_prediction] fail on the
    timestamp lookup, so that it returns the emergency result annotated
    with the [KeyError]. *)
Theorem missing_datetime_key self w data :
  dict_lookup "datetime" data = None ->
  prepare_features self data = Ok default_features /\
  rule_based_estimate w data = Raise (KeyError "datetime") /\
  _fallback_prediction w data = Ok (emergency_result w (KeyError "datetime")) /\
  model_used (emergency_result w (KeyError "datetime")) = "emergency_fallback" /\
  error (emergency_result w (KeyError "datetime")) = Some "'datetime'".
Proof.
  intros Hk.
  assert (rule_based_estimate w data = Raise (KeyError "datetime")) as Hr.
  { unfold rule_based_estimate, dict_getitem. by rewrite Hk. }
  split; [|split; [done|split; [|done]]].
  - unfold prepare_features, unscaled_features, dict_getitem.
    by rewrite Hk.
  - unfold _fallback_prediction. by rewrite Hr.
Qed.

Lemma ml_input_no_datetime a b c d e f g h :
  dict_lookup "datetime" (ml_input a b c d e f g h) = None.
Proof. reflexivity. Qed.

(** *** The cache service *)

Lemma cache_get_total cache w key :
  exists hit, cache_get cache w key = Ok hit.
Proof.
  unfold cache_get. destruct (negb (is_connected cache)); [eauto|].
  apply try_except_total. eauto.
Qed.

Lemma cache_set_total cache w key r ttl :
  exists written, cache_set cache w key r ttl = Ok written.
Proof.
  unfold cache_set. destruct (negb (is_connected cache)); [eauto|].
  apply try_except_total. eauto.
Qed.

(** *** The loop over the registered models *)

Lemma try_models_total self cache w key features names :
  exists found, try_models self cache w key features names = Ok found.
Proof.
  induction names as [|name rest IH]; simpl; [eauto|].
  destruct (models self !! name) as [model|]; [|done].
  destruct (model_attempt w model name features) as [r|e]; simpl; [|done].
  destruct (cache_set_total cache w key r 300) as [written ->]. simpl. eauto.
Qed.


Lemma try_models_unregistered self cache w key features names :
  Forall (fun name => models self !! name = None) names ->
  try_models self cache w key features names = Ok None.
Proof. induction 1 as [|name rest Hn _ IH]; simpl; [done|]. by rewrite Hn. Qed.

(** *** The resolver *)



(** C7. With neither predictor registered and a cache miss for the record's
    key, the result comes from [_fallback_prediction]: [model_used] is
    [rule_based_fallback] or [emergency_fallback] and is not a model
    name. *)
Theorem no_models_fallback self cache w data key :
  models self !! "xgboost" = None ->
  models self !! "random_forest" = None ->
  cache_key data = Ok key ->
  cache_get cache w key = Ok None ->
  exists r,
    predict_loadshedding self cache w data = Ok (r, cache) /\
    _fallback_prediction w data = Ok r /\
    (model_used r = "rule_based_fallback" \/ model_used r = "emergency_fallback") /\
    model_used r ∉ model_preferences.
Proof.
  intros Hx Hrf Hk Hg.
  destruct (fallback_total w data) as [r Hr]. exists r.
  assert (model_used r = "rule_based_fallback" \/
          model_used r = "emergency_fallback") as Hm
    by (by eapply fallback_model_used).
  split; [|split; [done|split; [done|]]].
  - unfold predict_loadshedding. rewrite Hk. cbn [bind]. rewrite Hg.
    destruct (prepare_features_total self data) as [features ->].
    cbn [bind try_except].
    rewrite try_models_unregistered by (by repeat constructor).
    cbn [bind try_except]. by rewrite Hr.
  - unfold model_preferences. intros Hin.
    repeat (apply elem_of_cons in Hin as [Hin|Hin]; [destruct Hm; congruence|]).
    by apply elem_of_nil in Hin.
Qed.

(** *** A model answers *)

Lemma cache_set_spec cache w key r :
  json_dumps r = Ok r ->
  cache_set cache w key r 300 =
  Ok ((is_connected cache && redis_set_up w)%bool, cache_after_write cache w key r).
Proof.
  intros Hj. unfold cache_set, cache_after_write, redis_setex.
  destruct cache as [[] store]; cbn [is_connected redis_client negb andb]; [|done].
  rewrite Hj. cbn [bind]. by destruct (redis_set_up w).
Qed.

Lemma py_len_Ok {A} (l : list A) n :
  py_len l = Ok n -> n = Z.of_nat (length l) /\ 0 <= n <= sys_maxsize.
Proof.
  unfold py_len. destruct (Z.of_nat (length l) <=? sys_maxsize) eqn:Hle; [|done].
  intros [= <-]. apply Z.leb_le in Hle. lia.
Qed.

Lemma maxsize_digits : sys_maxsize < 10 ^ int_max_str_digits.
Proof. apply Z.ltb_lt. vm_compute. reflexivity. Qed.

Lemma int_str_ok_small n : 0 <= n <= sys_maxsize -> int_str_ok n = true.
Proof.
  intros Hn. unfold int_str_ok. apply Z.ltb_lt.
  pose proof maxsize_digits. lia.
Qed.

Lemma model_attempt_spec w model name features r :
  model_attempt w model name features = Ok r ->
  model_used r = name /\
  timestamp r = isoformat (now w) /\
  features_used r = Some (Z.of_nat (length features)) /\
  exists label k,
    predict model features = Ok label /\
    py_int parse_int label = Ok k /\
    predicted_stage r = Z.max 0 (Z.min 8 k) /\
    match predict_proba model with
    | Some proba =>
        exists row c, proba features = Ok row /\ np_max row = Ok c /\
                      confidence_score r = round_float c 3
    | None => confidence_score r = 0.8%float
    end.
Proof.
  unfold model_attempt. intros H.
  apply bind_Ok in H as ([k c] & Hpc & H).
  apply bind_Ok in H as (n & [-> _]%py_len_Ok & H).
  inversion H; subst; clear H.
  cbn [model_used timestamp features_used predicted_stage confidence_score fst snd].
  repeat split.
  destruct (predict_proba model) as [proba|].
  - apply bind_Ok in Hpc as (row & Hrow & Hpc).
    apply bind_Ok in Hpc as (label & Hl & Hpc).
    apply bind_Ok in Hpc as (k' & Hk & Hpc).
    apply bind_Ok in Hpc as (c' & Hc & Hpc). inversion Hpc; subst.
    exists label, k. repeat split; [done..|]. by exists row, c.
  - apply bind_Ok in Hpc as (label & Hl & Hpc).
    apply bind_Ok in Hpc as (k' & Hk & Hpc). inversion Hpc; subst.
    exists label, k. repeat split; [done..|]. by vm_compute.
Qed.

(** What a model attempt returns can be written to the cache: [json.dumps]
    accepts it. *)
Lemma model_attempt_json w model name features r :
  model_attempt w model name features = Ok r -> json_dumps r = Ok r.
Proof.
  unfold model_attempt. intros H.
  apply bind_Ok in H as ([k c] & _ & H).
  apply bind_Ok in H as (n & [_ Hn]%py_len_Ok & H).
  injection H as <-. unfold json_dumps.
  cbn [predicted_stage features_used deficit_ratio from_option fst].
  rewrite (int_str_ok_small n) by done.
  rewrite int_str_ok_small; [done|]. unfold sys_maxsize. lia.
Qed.

Lemma first_success_registered self w features names name r :
  first_success parse_int isoformat self w features names name r ->
  name ∈ names /\
  exists model, models self !! name = Some model /\
                model_attempt w model name features = Ok r.
Proof.
  induction 1 as [name rest model r Hm Ha | skipped rest name r _ _ [IH1 IH2]].
  - split; [left | eauto].
  - split; [by right | done].
Qed.

Lemma try_models_first_success self cache w key features names name r :
  first_success parse_int isoformat self w features names name r ->
  try_models self cache w key features names =
  Ok (Some (r, cache_after_write cache w key r)).
Proof.
  induction 1 as [name rest model r Hm Ha | skipped rest name r Hs _ IH].
  - simpl. rewrite Hm, Ha. cbn [bind try_except].
    by rewrite cache_set_spec by (by eapply model_attempt_json).
  - simpl. destruct Hs as [-> | (model & e & -> & ->)]; done.
Qed.

(** C6, as the code has it. When the first model of the preference order
    that is registered and answers is [name], on a cache miss, the result
    carries [model_used = name], a stage clamped to [0, 8], the value of
    [np.max] on the class probabilities (their largest element when none
    is NaN) rounded to 3 decimals, or 0.8 for a model without
    [predict_proba], and it is handed to [CacheService.set] with a TTL of
    300 seconds before it is returned: the entry is stored under the
    record's key when the service is connected and the write goes
    through, and the cache is left as it was otherwise. *)
Theorem model_success_postcondition self cache w data key features name r :
  cache_key data = Ok key ->
  cache_get cache w key = Ok None ->
  prepare_features self data = Ok features ->
  first_success parse_int isoformat self w features model_preferences name r ->
  predict_loadshedding self cache w data = Ok (r, cache_after_write cache w key r) /\
  name ∈ model_preferences /\
  model_used r = name /\
  0 <= predicted_stage r <= 8 /\
  (exists model label k,
     models self !! name = Some model /\
     predict model features = Ok label /\
     py_int parse_int label = Ok k /\
     predicted_stage r = Z.max 0 (Z.min 8 k) /\
     match predict_proba model with
     | Some proba =>
         exists row c, proba features = Ok row /\ np_max row = Ok c /\
                       (Forall (fun p => is_nan p = false) row ->
                        c ∈ row /\
                        Forall (fun p => (p <=? c)%float = true) row) /\
                       confidence_score r = round_float c 3
     | None => confidence_score r = 0.8%float
     end) /\
  (if (is_connected cache && redis_set_up w)%bool
   then redis_client (cache_after_write cache w key r) !! key =
          Some {| e_value := r; e_expires := now w + 300 |}
   else cache_after_write cache w key r = cache).
Proof.
  intros Hk Hg Hf Hfs.
  pose proof (first_success_registered _ _ _ _ _ _ Hfs) as (Hin & model & Hm & Ha).
  pose proof (model_attempt_spec _ _ _ _ _ Ha)
    as (Hused & _ & _ & label & k & Hl & Hi & Hst & Hc).
  split; [|split; [done|split; [done|split; [lia|split]]]].
  - unfold predict_loadshedding. rewrite Hk. cbn [bind]. rewrite Hg, Hf.
    cbn [bind try_except]. by rewrite (try_models_first_success _ _ _ _ _ _ _ _ Hfs).
  - exists model, label, k. split_and!; [done..|].
    destruct (predict_proba model) as [proba|]; [|done].
    destruct Hc as (row & c & Hrow & Hmax & Hconf).
    exists row, c. split_and!; [done..| |done].
    intros Hnan. by apply np_max_greatest.
  - unfold cache_after_write.
    destruct (is_connected cache && redis_set_up w)%bool; [|done].
    cbn [redis_client]. by rewrite lookup_insert_eq.
Qed.

(** *** Bounds *)

Lemma adjusted_ratio_float deficit_ratio is_peak v :
  adjusted_ratio_of deficit_ratio is_peak = Ok v -> exists a, v = VFloat a.
Proof.
  unfold adjusted_ratio_of, py_mul.
  destruct deficit_ratio as [|b|n|f|s]; cbn [as_num num_to_float bind];
    intros H; try discriminate H.
  - apply bind_Ok in H as (fx & _ & H). injection H as <-. eauto.
  - apply bind_Ok in H as (fx & _ & H). injection H as <-. eauto.
  - injection H as <-. eauto.
Qed.

Lemma stage_of_ratio_bounds a k c :
  stage_of_ratio parse_int (VFloat a) = Ok (k, c) ->
  0 <= k <= 8 /\ c ∈ confidence_levels.
Proof.
  unfold stage_of_ratio. rewrite !py_lt_float. cbn [bind].
  assert (forall k' c', c' ∈ confidence_levels -> 0 <= k' <= 4 ->
            Ok (k', c') = Ok (k, c) -> 0 <= k <= 8 /\ c ∈ confidence_levels)
    as Hrow by (intros k' c' ? ? [= <- <-]; split; [lia|done]).
  assert (forall i x, confidence_levels !! i = Some x -> x ∈ confidence_levels)
    as Hin by (intros i x; apply list_elem_of_lookup_2).
  destruct (a <? 0.02)%float; [by apply Hrow; [apply (Hin 0%nat)|]|].
  destruct (a <? 0.05)%float; [by apply Hrow; [apply (Hin 1%nat)|]|].
  destruct (a <? 0.08)%float; [by apply Hrow; [apply (Hin 2%nat)|]|].
  destruct (a <? 0.12)%float; [by apply Hrow; [apply (Hin 3%nat)|]|].
  destruct (a <? 0.16)%float eqn:Hlast; [by apply Hrow; [apply (Hin 4%nat)|]|].
  rewrite py_mul_25. cbn [bind py_int].
  destruct (int_of_float (a * 25)) as [k'|] eqn:Hk; cbn [bind]; [|done].
  intros [= <- <-]. pose proof (scaled_ratio_nonneg a k' Hlast Hk).
  split; [lia|]. by apply (Hin 5%nat).
Qed.

Lemma rule_based_bounds w data r :
  rule_based_estimate w data = Ok r -> in_bounds r.
Proof.
  unfold rule_based_estimate. intros H.
  do 7 (apply bind_Ok in H as (? & _ & H)).
  apply bind_Ok in H as (adjusted & Hadj & H).
  apply bind_Ok in H as ([k c] & Hsc & H).
  apply adjusted_ratio_float in Hadj as [a ->].
  apply stage_of_ratio_bounds in Hsc as [Hk Hc].
  apply confidence_levels_probability in Hc as [Hc1 Hc2].
  cbn [fst snd] in H.
  destruct (random_random w <? 0.1)%float;
    apply bind_Ok in H as (rounded & _ & H); injection H as <-;
    (split; [cbn [predicted_stage]; lia | done]).
Qed.

Lemma choice_In {A} (i : nat) (seq : list A) (d : A) :
  (0 < length seq)%nat -> In (choice i seq d) seq.
Proof.
  intros Hlen. unfold choice. apply nth_In. apply Nat.mod_upper_bound. lia.
Qed.

Lemma emergency_bounds w e : in_bounds (emergency_result w e).
Proof.
  split; cbn [emergency_result predicted_stage confidence_score].
  - pose proof (choice_In (randbelow_emergency w) [0; 1; 2; 2; 3] 0) as Hin.
    cbn [length In] in Hin. lia.
  - apply probabilityb_spec. vm_compute. reflexivity.
Qed.

Lemma fallback_bounds w data r :
  _fallback_prediction w data = Ok r -> in_bounds r.
Proof.
  intros [H | (e & _ & ->)]%fallback_cases.
  - by eapply rule_based_bounds.
  - apply emergency_bounds.
Qed.

Lemma model_attempt_bounds w model name features r :
  (forall proba row, predict_proba model = Some proba ->
                     proba features = Ok row -> Forall probability row) ->
  model_attempt w model name features = Ok r -> in_bounds r.
Proof.
  intros Hp (_ & _ & _ & label & k & _ & _ & Hst & Hc)%model_attempt_spec.
  split; [lia|].
  destruct (predict_proba model) as [proba|].
  - destruct Hc as (row & c & Hrow & Hmax & ->).
    apply round_float_probability. eapply np_max_probability; [|done].
    by eapply Hp.
  - rewrite Hc. apply probabilityb_spec. vm_compute. reflexivity.
Qed.

Lemma cache_after_write_bounded cache w key r :
  cache_bounded cache -> in_bounds r ->
  cache_bounded (cache_after_write cache w key r).
Proof.
  intros Hc Hr. unfold cache_after_write.
  destruct (is_connected cache && redis_set_up w)%bool; [|done].
  intros k e. cbn [redis_client]. rewrite lookup_insert.
  destruct (decide (key = k)) as [->|]; [by intros [= <-]|]. apply Hc.
Qed.

Lemma try_models_bounds self cache w key features names r cache' :
  probabilities_ok self -> cache_bounded cache ->
  try_models self cache w key features names = Ok (Some (r, cache')) ->
  in_bounds r /\ cache_bounded cache'.
Proof.
  intros Hp Hc. induction names as [|name rest IH]; cbn [try_models]; [done|].
  destruct (models self !! name) as [model|] eqn:Hm; [|done].
  destruct (model_attempt w model name features) as [r'|e] eqn:Ha;
    cbn [bind try_except]; [|done].
  rewrite cache_set_spec by (by eapply model_attempt_json). cbn [bind snd]. intros [= <- <-].
  assert (in_bounds r').
  { eapply model_attempt_bounds; [|done]. intros proba row ??. by eapply Hp. }
  split; [done|]. by apply cache_after_write_bounded.
Qed.

Lemma cache_get_bounded cache w key r :
  cache_bounded cache -> cache_get cache w key = Ok (Some r) -> in_bounds r.
Proof.
  intros Hc. unfold cache_get, redis_get.
  destruct (negb (is_connected cache)); [done|].
  destruct (redis_get_up w); cbn [bind try_except]; [|done].
  destruct (redis_client cache !! key) as [e|] eqn:He; [|done].
  destruct (now w <? e_expires e); [|done]. intros [= <-]. by eapply Hc.
Qed.

(** C5. Whenever line 89 yields a cache key, [predict_loadshedding] returns
    a result, and on every path the result respects the bounds: a stage in
    [0, 8] and a confidence in [0, 1]. This holds for a model's answer when
    its class probabilities lie in [0, 1], for the rule-based estimate with
    or without the perturbation, for the emergency result whatever the
    record holds, and for a cached result as long as the cache only holds
    results within the bounds, which every write of the resolver
    preserves. *)
Theorem output_bounds self cache w data key :
  cache_key data = Ok key -> probabilities_ok self -> cache_bounded cache ->
  (exists r cache',
     predict_loadshedding self cache w data = Ok (r, cache') /\
     in_bounds r /\ cache_bounded cache') /\
  (forall name model features r,
     models self !! name = Some model ->
     model_attempt w model name features = Ok r -> in_bounds r) /\
  (forall r, rule_based_estimate w data = Ok r -> in_bounds r) /\
  (forall e, in_bounds (emergency_result w e)) /\
  (exists r, _fallback_prediction w data = Ok r /\ in_bounds r).
Proof.
  intros Hk Hp Hc. split; [|split; [|split; [|split]]].
  - unfold predict_loadshedding. rewrite Hk. cbn [bind].
    destruct (cache_get_total cache w key) as [[r|] Hg]; rewrite Hg.
    { exists r, cache. eauto using cache_get_bounded. }
    destruct (prepare_features_total self data) as [features ->].
    cbn [bind try_except].
    destruct (try_models_total self cache w key features model_preferences)
      as [[[r cache']|] Ht]; rewrite Ht; cbn [bind try_except].
    { exists r, cache'. split; [done|]. by eapply try_models_bounds. }
    destruct (fallback_total w data) as [r Hr]. rewrite Hr. cbn [bind].
    exists r, cache. eauto using fallback_bounds.
  - intros name model features r Hm Ha.
    eapply model_attempt_bounds; [|done]. intros proba row ??. by eapply Hp.
  - intros r. apply rule_based_bounds.
  - apply emergency_bounds.
  - destruct (fallback_total w data) as [r Hr]. eauto using fallback_bounds.
Qed.

(** *** Two calls on the same record *)

(** Case analysis on the first computation of a chain of [bind]s; a
    raised exception ends the chain on both sides of the goal. *)
Ltac step_bind :=
  match goal with
  | |- context [bind ?m _] =>
      lazymatch m with
      | bind _ _ => fail
      | _ => destruct m eqn:?; cbn [bind]; [|done]
      end
  end.

Lemma dict_lookup_list_to_map k (d : pydict) :
  dict_lookup k d = (list_to_map d : gmap string value) !! k.
Proof.
  induction d as [|[k' v] d IH]; cbn [dict_lookup list_to_map foldr]; [done|].
  cbn [uncurry fst snd].
  rewrite lookup_insert. destruct (String.eqb_spec k k') as [->|Hne].
  - by rewrite decide_True.
  - by rewrite decide_False.
Qed.

Lemma same_map_same_lookup (d1 d2 : pydict) :
  (list_to_map d1 : gmap string value) = list_to_map d2 ->
  forall k, dict_lookup k d1 = dict_lookup k d2.
Proof. intros H k. by rewrite !dict_lookup_list_to_map, H. Qed.

Lemma prepare_features_ext self d1 d2 :
  (forall k, dict_lookup k d1 = dict_lookup k d2) ->
  prepare_features self d1 = prepare_features self d2.
Proof.
  intros H. unfold prepare_features, unscaled_features, dict_getitem, dict_get.
  by rewrite !H.
Qed.

Lemma rule_based_ext w d1 d2 :
  (forall k, dict_lookup k d1 = dict_lookup k d2) ->
  rule_based_estimate w d1 = rule_based_estimate w d2.
Proof.
  intros H. unfold rule_based_estimate, dict_getitem, dict_get.
  by rewrite !H.
Qed.

Lemma fallback_ext w d1 d2 :
  (forall k, dict_lookup k d1 = dict_lookup k d2) ->
  _fallback_prediction w d1 = _fallback_prediction w d2.
Proof.
  intros H. unfold _fallback_prediction. by rewrite (rule_based_ext w d1 d2).
Qed.

(** The clock and the draws decide neither whether the rule-based
    estimator fails nor, without perturbation, what it returns. *)
Lemma rule_based_world w1 w2 data :
  match rule_based_estimate w1 data, rule_based_estimate w2 data with
  | Ok r1, Ok r2 =>
      unperturbed w1 -> unperturbed w2 ->
      predicted_stage r1 = predicted_stage r2 /\
      confidence_score r1 = confidence_score r2
  | Raise e1, Raise e2 => e1 = e2
  | _, _ => False
  end.
Proof.
  unfold rule_based_estimate, unperturbed.
  repeat step_bind.
  destruct (random_random w1 <? 0.1)%float, (random_random w2 <? 0.1)%float;
    match goal with sc : (Z * float)%type |- _ => destruct sc end;
    repeat step_bind; cbn [predicted_stage confidence_score]; intros; done.
Qed.

Lemma fallback_world w1 w2 data r1 r2 :
  _fallback_prediction w1 data = Ok r1 ->
  _fallback_prediction w2 data = Ok r2 ->
  model_used r1 = model_used r2 /\
  (model_used r1 = "rule_based_fallback" ->
   unperturbed w1 -> unperturbed w2 ->
   predicted_stage r1 = predicted_stage r2 /\
   confidence_score r1 = confidence_score r2).
Proof.
  intros H1 H2. pose proof (rule_based_world w1 w2 data) as Hw.
  apply fallback_cases in H1 as [H1 | (e1 & H1 & ->)];
    apply fallback_cases in H2 as [H2 | (e2 & H2 & ->)];
    rewrite H1, H2 in Hw; try done.
  rewrite (rule_based_model_used _ _ _ H1), (rule_based_model_used _ _ _ H2).
  auto.
Qed.

Lemma model_attempt_world w1 w2 model name features :
  match model_attempt w1 model name features,
        model_attempt w2 model name features with
  | Ok r1, Ok r2 => same_prediction r1 r2 /\ model_used r1 = name
  | Raise _, Raise _ => True
  | _, _ => False
  end.
Proof.
  unfold model_attempt.
  destruct (match predict_proba model with Some _ => _ | None => _ end);
    cbn [bind]; [|done].
  by destruct (py_len features).
Qed.

Lemma try_models_world self cache1 cache2 w1 w2 key features names :
  match try_models self cache1 w1 key features names,
        try_models self cache2 w2 key features names with
  | Ok None, Ok None => True
  | Ok (Some (r1, c1)), Ok (Some (r2, c2)) =>
      same_prediction r1 r2 /\ model_used r1 ∈ names /\
      c1 = cache_after_write cache1 w1 key r1
  | _, _ => False
  end.
Proof.
  induction names as [|name rest IH]; cbn [try_models]; [done|].
  destruct (models self !! name) as [model|].
  - pose proof (model_attempt_world w1 w2 model name features) as Hw.
    destruct (model_attempt w1 model name features) as [r1|] eqn:Ha1,
             (model_attempt w2 model name features) as [r2|] eqn:Ha2;
      try done; cbn [bind try_except].
    + rewrite !cache_set_spec by (by eapply model_attempt_json).
      cbn [bind snd]. destruct Hw as [Hs Hn].
      split; [done|]. split; [|done]. rewrite Hn. left.
    + destruct (try_models self cache1 w1 key features rest) as [[[r1 c1]|]|],
               (try_models self cache2 w2 key features rest) as [[[r2 c2]|]|];
        try done.
      destruct IH as (? & ? & ?). split; [done|]. split; [by right|done].
  - destruct (try_models self cache1 w1 key features rest) as [[[r1 c1]|]|],
             (try_models self cache2 w2 key features rest) as [[[r2 c2]|]|];
      try done.
    destruct IH as (? & ? & ?). split; [done|]. split; [by right|done].
Qed.

Lemma cache_get_no_live cache w key :
  no_live_entry cache w key -> cache_get cache w key = Ok None.
Proof.
  intros Hn. unfold cache_get, redis_get.
  destruct (negb (is_connected cache)); [done|].
  destruct (redis_get_up w); cbn [bind try_except]; [|done].
  destruct (redis_client cache !! key) as [e|] eqn:He; [|done].
  apply Hn in He. by rewrite (proj2 (Z.ltb_ge _ _) He).
Qed.

(** After the write of the first call the only entry that can be live
    under [key] holds the first result. *)
Lemma cache_get_after_write cache w1 w2 key r x :
  no_live_entry cache w1 key -> now w1 <= now w2 ->
  cache_get (cache_after_write cache w1 key r) w2 key = Ok (Some x) -> x = r.
Proof.
  intros Hn Ht. unfold cache_after_write.
  destruct (is_connected cache && redis_set_up w1)%bool.
  - unfold cache_get, redis_get. cbn [is_connected redis_client negb].
    destruct (redis_get_up w2); cbn [bind try_except]; [|done].
    rewrite lookup_insert_eq. cbn [e_expires e_value].
    destruct (now w2 <? now w1 + 300); [|done]. by intros [= <-].
  - rewrite cache_get_no_live; [done|].
    intros e He. apply Hn in He. lia.
Qed.

Lemma cache_get_hit cache w1 w2 key r :
  is_connected cache = true -> redis_set_up w1 = true ->
  redis_get_up w2 = true -> now w2 < now w1 + 300 ->
  cache_get (cache_after_write cache w1 key r) w2 key = Ok (Some r).
Proof.
  intros Hc Hs Hg Ht. unfold cache_after_write. rewrite Hc, Hs. cbn [andb].
  unfold cache_get, redis_get. cbn [is_connected redis_client negb].
  rewrite Hg. cbn [bind try_except]. rewrite lookup_insert_eq.
  cbn [e_expires e_value]. by rewrite (proj2 (Z.ltb_lt _ _) Ht).
Qed.

Lemma predict_unfold_miss self cache w data key features :
  cache_key data = Ok key ->
  cache_get cache w key = Ok None ->
  prepare_features self data = Ok features ->
  predict_loadshedding self cache w data =
  match try_models self cache w key features model_preferences with
  | Ok (Some r) => Ok r
  | _ => do r <- _fallback_prediction w data; Ok (r, cache)
  end.
Proof.
  intros Hk Hg Hf. unfold predict_loadshedding.
  rewrite Hk. cbn [bind]. rewrite Hg, Hf. cbn [bind try_except].
  destruct (try_models self cache w key features model_preferences)
    as [[[r c]|]|]; cbn [bind try_except]; [done| |done].
  by destruct (_fallback_prediction w data).
Qed.

Lemma model_name_not_fallback name :
  name ∈ model_preferences -> name <> "rule_based_fallback".
Proof.
  unfold model_preferences. intros Hin Heq.
  repeat (apply elem_of_cons in Hin as [Hin|Hin]; [congruence|]).
  by apply elem_of_nil in Hin.
Qed.

Lemma fallback_not_model w data r :
  _fallback_prediction w data = Ok r -> model_used r ∉ model_preferences.
Proof.
  intros Hm%fallback_model_used Hin. unfold model_preferences in Hin.
  repeat (apply elem_of_cons in Hin as [Hin|Hin]; [destruct Hm; congruence|]).
  by apply elem_of_nil in Hin.
Qed.

Lemma cache_get_Some cache w key x :
  cache_get cache w key = Ok (Some x) ->
  exists e, redis_client cache !! key = Some e /\
            now w < e_expires e /\ e_value e = x.
Proof.
  unfold cache_get, redis_get.
  destruct (negb (is_connected cache)); [done|].
  destruct (redis_get_up w); cbn [bind try_except]; [|done].
  destruct (redis_client cache !! key) as [e|]; [|done].
  destruct (now w <? e_expires e) eqn:Hlt; [|done].
  intros [= <-]. exists e. split_and!; try done. by apply Z.ltb_lt.
Qed.

(** An answer that a model gave once is, up to the timestamp, the answer
    of every later run of the loop. *)
Lemma answered_by_try_models self data features x cache w key :
  prepare_features self data = Ok features ->
  answered_by self data x ->
  match try_models self cache w key features model_preferences with
  | Ok (Some (r, _)) => same_prediction x r /\ model_used x ∈ model_preferences
  | _ => False
  end.
Proof.
  intros Hf (features0 & w0 & name & Hf0 & Hfs).
  rewrite Hf in Hf0. injection Hf0 as <-.
  pose proof (try_models_first_success self cache w0 key features
                model_preferences name x Hfs) as H0.
  pose proof (try_models_world self cache cache w0 w key features
                model_preferences) as Hw.
  rewrite H0 in Hw.
  destruct (try_models self cache w key features model_preferences)
    as [[[r c]|]|]; try done.
  by destruct Hw as (? & ? & _).
Qed.

(** C4, as the code has it. Two calls on records that hold the same
    values under the same keys, the second not before the first and on the
    cache the first one left, where whatever is live under the key when
    the first call starts is an answer a model of this service gave for
    this record (in particular when nothing is live there): both return,
    with the same [model_used]. When a model answered, stage and
    confidence agree as well; on a cache hit of the second call the result
    is the entry read, and it agrees with the first result; the second
    result is the first one itself when the first call read it from the
    cache or found nothing live, and the second call reads the cache. On
    the rule-based path stage and confidence agree when neither call draws
    the perturbation. The time between the calls may be the TTL or more:
    an entry that has expired is computed again, with the same outcome. *)
Theorem repeat_within_ttl self cache w1 w2 d1 d2 key :
  dict_wf d1 -> dict_wf d2 ->
  (list_to_map d1 : gmap string value) = list_to_map d2 ->
  cache_key d1 = Ok key ->
  coherent_entry self d1 cache w1 key ->
  now w1 <= now w2 ->
  exists r1 cache1 r2 cache2,
    predict_loadshedding self cache w1 d1 = Ok (r1, cache1) /\
    predict_loadshedding self cache1 w2 d2 = Ok (r2, cache2) /\
    cache_key d2 = Ok key /\
    model_used r1 = model_used r2 /\
    (model_used r1 ∈ model_preferences ->
     predicted_stage r1 = predicted_stage r2 /\
     confidence_score r1 = confidence_score r2) /\
    (forall x, cache_get cache1 w2 key = Ok (Some x) ->
               r2 = x /\ same_prediction r1 r2) /\
    (no_live_entry cache w1 key \/ cache_get cache w1 key = Ok (Some r1) ->
     forall x, cache_get cache1 w2 key = Ok (Some x) -> x = r1 /\ r2 = r1) /\
    (cache_get cache w1 key = Ok None ->
     model_used r1 ∈ model_preferences ->
     is_connected cache = true -> redis_set_up w1 = true ->
     redis_get_up w2 = true -> now w2 < now w1 + 300 -> r2 = r1) /\
    (model_used r1 = "rule_based_fallback" ->
     unperturbed w1 -> unperturbed w2 ->
     predicted_stage r1 = predicted_stage r2 /\
     confidence_score r1 = confidence_score r2).
Proof.
  intros Hwf1 Hwf2 Hmap Hk1 Hcoh Ht.
  pose proof (same_map_same_lookup d1 d2 Hmap) as Hlk.
  assert (cache_key d2 = Ok key) as Hk2
    by (by rewrite <- (cache_key_same_map d1 d2)).
  destruct (prepare_features_total self d1) as [features Hf1].
  assert (prepare_features self d2 = Ok features) as Hf2
    by (by rewrite <- (prepare_features_ext self d1 d2)).
  (* an entry of the first cache that the second call reads was live at the
     first call *)
  assert (forall x, cache_get cache w2 key = Ok (Some x) ->
            answered_by self d1 x /\
            forall y, cache_get cache w1 key = Ok (Some y) -> y = x) as Hold.
  { intros x (e & He & Hlive & <-)%cache_get_Some. split.
    - apply Hcoh; [done|lia].
    - intros y (e' & He' & _ & <-)%cache_get_Some. congruence. }
  destruct (cache_get_total cache w1 key) as [[h|] Hg1].
  - (* the first call reads the cache *)
    assert (answered_by self d1 h) as Hans.
    { apply cache_get_Some in Hg1 as (e & He & Hlive & <-). by apply Hcoh. }
    exists h, cache.
    assert (predict_loadshedding self cache w1 d1 = Ok (h, cache)) as ->.
    { unfold predict_loadshedding. rewrite Hk1. cbn [bind]. by rewrite Hg1. }
    destruct (cache_get_total cache w2 key) as [[x|] Hg2].
    + (* and so does the second *)
      assert (h = x) as <- by (by apply (Hold x Hg2)).
      exists h, cache.
      assert (predict_loadshedding self cache w2 d2 = Ok (h, cache)) as ->.
      { unfold predict_loadshedding. rewrite Hk2. cbn [bind]. by rewrite Hg2. }
      split_and!; try done.
      * intros y Hy. rewrite Hg2 in Hy. by injection Hy as <-.
      * intros _ y Hy. rewrite Hg2 in Hy. by injection Hy as <-.
    + (* the entry has expired: the second call computes *)
      rewrite (predict_unfold_miss self cache w2 d2 key features) by done.
      pose proof (answered_by_try_models self d1 features h cache w2 key
                    Hf1 Hans) as Hw.
      destruct (try_models self cache w2 key features model_preferences)
        as [[[r2 c2]|]|]; try done.
      destruct Hw as [(Hu & Hs & Hc) Hin].
      exists r2, c2. split_and!; try done.
      * intros y Hy. by rewrite Hg2 in Hy.
      * intros _ y Hy. by rewrite Hg2 in Hy.
      * intros Hnone. by rewrite Hg1 in Hnone.
  - (* the first call computes *)
    rewrite (predict_unfold_miss self cache w1 d1 key features) by done.
    destruct (try_models self cache w1 key features model_preferences)
      as [[[r1 c1]|]|] eqn:Hm1.
    + (* a model answered the first call *)
      exists r1, c1.
      assert (c1 = cache_after_write cache w1 key r1 /\
              model_used r1 ∈ model_preferences) as [-> Hin1].
      { pose proof (try_models_world self cache cache w1 w1 key features
                      model_preferences) as Hw.
        rewrite Hm1 in Hw. by destruct Hw as (_ & ? & ?). }
      set (cache1 := cache_after_write cache w1 key r1).
      destruct (cache_get_total cache1 w2 key) as [[x|] Hg2].
      * (* read back from the cache *)
        assert (same_prediction r1 x) as (Hu & Hs & Hc).
        { unfold cache1, cache_after_write in Hg2.
          destruct (is_connected cache && redis_set_up w1)%bool.
          - apply cache_get_Some in Hg2 as (e & He & _ & <-).
            cbn [redis_client] in He. rewrite lookup_insert_eq in He.
            by injection He as <-.
          - destruct (Hold x Hg2) as [Hans _].
            pose proof (answered_by_try_models self d1 features x cache w1 key
                          Hf1 Hans) as Hw.
            rewrite Hm1 in Hw. destruct Hw as [(? & ? & ?) _]. done. }
        exists x, cache1. unfold predict_loadshedding at 1.
        rewrite Hk2. cbn [bind]. rewrite Hg2.
        split_and!; try done.
        -- by intros y [= <-].
        -- intros [Hfresh | Hhit]; [|by rewrite Hg1 in Hhit].
           intros y [= <-].
           by rewrite (cache_get_after_write _ _ _ _ _ _ Hfresh Ht Hg2).
        -- intros _ _ Hc1 Hs1 Hg Hlt. unfold cache1 in Hg2.
           rewrite cache_get_hit in Hg2 by done. by injection Hg2 as <-.
      * (* recomputed *)
        rewrite (predict_unfold_miss self cache1 w2 d2 key features) by done.
        pose proof (try_models_world self cache cache1 w1 w2 key features
                      model_preferences) as Hw.
        rewrite Hm1 in Hw.
        destruct (try_models self cache1 w2 key features model_preferences)
          as [[[r2 c2]|]|]; try done.
        destruct Hw as ((Hu & Hs & Hc) & _ & _).
        exists r2, c2. split_and!; try done.
        -- intros y Hy. by rewrite Hg2 in Hy.
        -- intros _ y Hy. by rewrite Hg2 in Hy.
        -- intros _ _ Hc1 Hs1 Hg Hlt. unfold cache1 in Hg2.
           rewrite cache_get_hit in Hg2 by done. discriminate Hg2.
    + (* no model answered: the fallback, nothing written *)
      destruct (fallback_total w1 d1) as [r1 Hr1]. rewrite Hr1. cbn [bind].
      exists r1, cache.
      assert (cache_get cache w2 key = Ok None) as Hg2.
      { destruct (cache_get_total cache w2 key) as [[x|] Hg2]; [|done].
        destruct (Hold x Hg2) as [Hans _].
        pose proof (answered_by_try_models self d1 features x cache w1 key
                      Hf1 Hans) as Hw.
        by rewrite Hm1 in Hw. }
      rewrite (predict_unfold_miss self cache w2 d2 key features) by done.
      pose proof (try_models_world self cache cache w1 w2 key features
                    model_preferences) as Hw.
      rewrite Hm1 in Hw.
      destruct (try_models self cache w2 key features model_preferences)
        as [[[r2 c2]|]|]; try done.
      destruct (fallback_total w2 d2) as [r2 Hr2]. rewrite Hr2. cbn [bind].
      exists r2, cache.
      rewrite <- (fallback_ext w2 d1 d2 Hlk) in Hr2.
      destruct (fallback_world w1 w2 d1 r1 r2 Hr1 Hr2) as [Hu Hrule].
      pose proof (fallback_not_model w1 d1 r1 Hr1) as Hnot.
      split_and!; try done.
      * intros y Hy. by rewrite Hg2 in Hy.
      * intros _ y Hy. by rewrite Hg2 in Hy.
    + (* the loop cannot raise *)
      destruct (try_models_total self cache w1 key features model_preferences)
        as [found Hfound]. congruence.
Qed.

(** *** The worked examples of the rule-based estimator *)

(** Evaluate the first computation of a chain of [bind]s. *)
Ltac run_bind :=
  match goal with
  | |- context [bind ?m _] =>
      lazymatch m with
      | bind _ _ => fail
      | _ =>
          let v := eval vm_compute in m in
          replace m with v by (vm_compute; reflexivity);
          cbn [bind fst snd]
      end
  end.

(** The deficit ratio as the estimator computes it from the two fields. *)
Local Abbreviation ratio_of demand generation :=
  (do diff <- py_sub demand generation;
   do deficit <- py_max (VInt 0) diff;
   py_truediv deficit demand).

(** C2, as the code has it. Demand 31000, generation 28000 (written as
    [int] or as [float]), hour 8, no perturbation: the deficit ratio rounds
    to 0.0968 and the adjusted ratio to 0.1258, which lies between the
    thresholds 0.12 and 0.16, so the estimator returns stage 4 with
    confidence 0.6. *)
Theorem peak_hour_example w data raw dayofweek month demand generation :
  demand ∈ [VInt 31000; VFloat 31000] ->
  generation ∈ [VInt 28000; VFloat 28000] ->
  dict_lookup "demand_forecast" data = Some demand ->
  dict_lookup "generation_capacity" data = Some generation ->
  dict_lookup "datetime" data = Some raw ->
  to_datetime raw = Ok (Timestamp 8 dayofweek month) ->
  unperturbed w ->
  let ratio := (3000 / 31000)%float in
  let adjusted := (ratio * 1.3)%float in
  ratio_of demand generation = Ok (VFloat ratio) /\
  round_float ratio 4 = 0.0968%float /\
  adjusted_ratio_of (VFloat ratio) true = Ok (VFloat adjusted) /\
  round_float adjusted 4 = 0.1258%float /\
  stage_of_ratio parse_int (VFloat adjusted) = Ok (4, 0.6%float) /\
  _fallback_prediction w data =
    Ok {| predicted_stage := 4;
          confidence_score := 0.6;
          model_used := "rule_based_fallback";
          timestamp := isoformat (now w);
          features_used := None;
          deficit_ratio := Some (VFloat 0.0968);
          is_peak_hour := Some true;
          error := None |}.
Proof.
  intros Hd Hg Hld Hlg Hlt Hdt Hu ratio adjusted.
  assert (ratio_of demand generation = Ok (VFloat ratio)) as Hratio.
  { repeat (apply elem_of_cons in Hd as [->|Hd]);
      repeat (apply elem_of_cons in Hg as [->|Hg]);
      try (by apply elem_of_nil in Hd); try (by apply elem_of_nil in Hg);
      vm_compute; reflexivity. }
  split_and!; [done|by vm_compute..|].
  unfold _fallback_prediction, rule_based_estimate, dict_getitem, dict_get.
  rewrite Hld, Hlg, Hlt. cbn [bind]. rewrite Hdt. cbn [bind dt_hour].
  unfold unperturbed in Hu.
  repeat (apply elem_of_cons in Hd as [->|Hd]);
    repeat (apply elem_of_cons in Hg as [->|Hg]);
    try (by apply elem_of_nil in Hd); try (by apply elem_of_nil in Hg);
    repeat run_bind; rewrite Hu; repeat run_bind;
    cbn [try_except]; do 2 f_equal; vm_compute; reflexivity.
Qed.

(** C3, as the code has it. Demand 31000, generation 28000, hour 2, no
    perturbation: the adjusted ratio is the deficit ratio, it rounds to
    0.0968 and lies between the thresholds 0.08 and 0.12, so the estimator
    returns stage 3 with confidence 0.65. *)
Theorem off_peak_example w data raw dayofweek month demand generation :
  demand ∈ [VInt 31000; VFloat 31000] ->
  generation ∈ [VInt 28000; VFloat 28000] ->
  dict_lookup "demand_forecast" data = Some demand ->
  dict_lookup "generation_capacity" data = Some generation ->
  dict_lookup "datetime" data = Some raw ->
  to_datetime raw = Ok (Timestamp 2 dayofweek month) ->
  unperturbed w ->
  let ratio := (3000 / 31000)%float in
  ratio_of demand generation = Ok (VFloat ratio) /\
  adjusted_ratio_of (VFloat ratio) false = Ok (VFloat ratio) /\
  round_float ratio 4 = 0.0968%float /\
  stage_of_ratio parse_int (VFloat ratio) = Ok (3, 0.65%float) /\
  _fallback_prediction w data =
    Ok {| predicted_stage := 3;
          confidence_score := 0.65;
          model_used := "rule_based_fallback";
          timestamp := isoformat (now w);
          features_used := None;
          deficit_ratio := Some (VFloat 0.0968);
          is_peak_hour := Some false;
          error := None |}.
Proof.
  intros Hd Hg Hld Hlg Hlt Hdt Hu ratio.
  assert (ratio_of demand generation = Ok (VFloat ratio)) as Hratio.
  { repeat (apply elem_of_cons in Hd as [->|Hd]);
      repeat (apply elem_of_cons in Hg as [->|Hg]);
      try (by apply elem_of_nil in Hd); try (by apply elem_of_nil in Hg);
      vm_compute; reflexivity. }
  split_and!; [done|by vm_compute..|].
  unfold _fallback_prediction, rule_based_estimate, dict_getitem, dict_get.
  rewrite Hld, Hlg, Hlt. cbn [bind]. rewrite Hdt. cbn [bind dt_hour].
  unfold unperturbed in Hu.
  repeat (apply elem_of_cons in Hd as [->|Hd]);
    repeat (apply elem_of_cons in Hg as [->|Hg]);
    try (by apply elem_of_nil in Hd); try (by apply elem_of_nil in Hg);
    repeat run_bind; rewrite Hu; repeat run_bind;
    cbn [try_except]; do 2 f_equal; vm_compute; reflexivity.
Qed.

End Correctness.

(** ** The statements on concrete requests *)

Section Examples.

Import Sample.

Local Abbreviation predict :=
  (predict_loadshedding hash repr to_datetime parse_int isoformat).
Local Abbreviation fallback :=
  (_fallback_prediction to_datetime parse_int isoformat).

Lemma peak_request_wf : dict_wf peak_request.
Proof. unfold dict_wf. apply (bool_decide_unpack _). vm_compute. exact I. Qed.

Lemma peak_request_reordered_wf : dict_wf peak_request_reordered.
Proof. unfold dict_wf. apply (bool_decide_unpack _). vm_compute. exact I. Qed.

Lemma offpeak_request_wf : dict_wf offpeak_request.
Proof. unfold dict_wf. apply (bool_decide_unpack _). vm_compute. exact I. Qed.

Lemma peak_request_same_map :
  (list_to_map peak_request : gmap string value) =
  list_to_map peak_request_reordered.
Proof.
  apply map_eq. intros k. rewrite <- !dict_lookup_list_to_map.
  unfold peak_request, peak_request_reordered. cbn [dict_lookup].
  repeat match goal with
         | |- context [String.eqb k ?s] =>
             destruct (String.eqb_spec k s) as [->|?]; cbn [String.eqb]
         end; done.
Qed.

Lemma calm_unperturbed : unperturbed calm.
Proof. vm_compute. reflexivity. Qed.



(** The two orders of the peak-hour request share one cache key. *)
Lemma cache_key_order_insensitive_witness :
  cache_key hash repr peak_request = Ok "prediction:54" /\
  cache_key hash repr peak_request_reordered = Ok "prediction:54".
Proof.
  assert (cache_key hash repr peak_request = Ok "prediction:54") as Hk
    by (vm_compute; reflexivity).
  split; [exact Hk|].
  apply (proj1 (proj2 (cache_key_order_insensitive hash repr peak_request
                         peak_request_reordered
                         peak_request_wf peak_request_reordered_wf
                         peak_request_same_map))).
  exact Hk.
Defined.

(** C9 as stated fails: the demand written as [31000] and as [31000.0]
    gives two records that are equal under [==], and their keys differ. *)
Lemma equal_records_different_keys :
  dict_eq peak_request peak_request_float = true /\
  dict_wf peak_request /\
  dict_wf peak_request_float /\
  cache_key hash repr peak_request = Ok "prediction:54" /\
  cache_key hash repr peak_request_float = Ok "prediction:56".
Proof.
  split; [vm_compute; reflexivity|].
  split; [unfold dict_wf; apply (bool_decide_unpack _); vm_compute; exact I|].
  split; [unfold dict_wf; apply (bool_decide_unpack _); vm_compute; exact I|].
  split; vm_compute; reflexivity.
Qed.

(** A scaler that raises sends the peak-hour request to the default
    vector. *)
Lemma prepare_features_recovers_witness :
  prepare_features to_datetime scaler_only peak_request = Ok default_features.
Proof.
  apply (prepare_features_recovers to_datetime scaler_only peak_request).
  right. exists broken_scaler. eexists. eexists.
  split; [vm_compute; reflexivity|]. split; vm_compute; reflexivity.
Defined.

(** The request of the router has no ["datetime"] key and ends in the
    emergency result. *)
Lemma missing_datetime_key_witness :
  dict_lookup "datetime" router_request = None /\
  prepare_features to_datetime no_models router_request = Ok default_features /\
  fallback noisy router_request =
    Ok (emergency_result isoformat noisy (KeyError "datetime")).
Proof.
  assert (dict_lookup "datetime" router_request = None) as Hk by reflexivity.
  split; [exact Hk|].
  pose proof (missing_datetime_key to_datetime parse_int isoformat no_models
                noisy router_request Hk) as (Hf & _ & Hr & _).
  split; [exact Hf | exact Hr].
Defined.

(** Without models the peak-hour request is answered by the fallback. *)
Lemma no_models_fallback_witness :
  exists r,
    predict no_models connected calm peak_request = Ok (r, connected) /\
    model_used r = "rule_based_fallback".
Proof.
  destruct (no_models_fallback hash repr to_datetime parse_int isoformat
              no_models connected calm peak_request "prediction:54")
    as (r & Hp & Hf & _).
  - reflexivity.
  - reflexivity.
  - vm_compute. reflexivity.
  - vm_compute. reflexivity.
  - exists r. split; [exact Hp|].
    assert (fallback calm peak_request = Ok r) as Hf' by exact Hf.
    vm_compute in Hf'. injection Hf' as <-. reflexivity.
Defined.

(** The bounds hold for the classifier of the sample registry. *)
Lemma output_bounds_witness :
  exists r cache',
    predict xgboost_only connected calm peak_request = Ok (r, cache') /\
    in_bounds r /\ cache_bounded cache'.
Proof.
  apply (output_bounds hash repr to_datetime parse_int isoformat
           xgboost_only connected calm peak_request "prediction:54").
  - vm_compute. reflexivity.
  - intros name model proba features row Hm Hp Hrow.
    unfold xgboost_only in Hm. cbn [models] in Hm.
    apply lookup_singleton_Some in Hm as [_ <-].
    injection Hp as <-. injection Hrow as <-.
    repeat constructor; vm_compute; reflexivity.
  - intros key e He. cbn in He. by rewrite lookup_empty in He.
Defined.

(** C2 as stated fails: on the peak-hour request, without perturbation,
    the estimator does not return stage 3 with confidence 0.65. *)
Lemma peak_hour_example_not_stage_3 :
  unperturbed calm /\
  dict_lookup "demand_forecast" peak_request = Some (VInt 31000) /\
  dict_lookup "generation_capacity" peak_request = Some (VInt 28000) /\
  to_datetime (VStr "2024-06-15T08:00") = Ok (Timestamp 8 5 6) /\
  exists r,
    fallback calm peak_request = Ok r /\
    predicted_stage r = 4 /\ predicted_stage r <> 3 /\
    confidence_score r = 0.6%float /\ confidence_score r <> 0.65%float.
Proof.
  split_and!; [by vm_compute..|].
  eexists. split; [vm_compute; reflexivity|].
  cbn [predicted_stage confidence_score]. split_and!; [done..|].
  intros H. apply (f_equal Prim2SF) in H. vm_compute in H. discriminate H.
Qed.

(** The peak-hour request gives stage 4 with confidence 0.6. *)
Lemma peak_hour_example_witness :
  fallback calm peak_request =
    Ok {| predicted_stage := 4;
          confidence_score := 0.6;
          model_used := "rule_based_fallback";
          timestamp := isoformat (now calm);
          features_used := None;
          deficit_ratio := Some (VFloat 0.0968);
          is_peak_hour := Some true;
          error := None |}.
Proof.
  apply (peak_hour_example to_datetime parse_int isoformat calm peak_request
           (VStr "2024-06-15T08:00") 5 6 (VInt 31000) (VInt 28000)).
  - apply list_elem_of_here.
  - apply list_elem_of_here.
  - reflexivity.
  - reflexivity.
  - reflexivity.
  - reflexivity.
  - vm_compute. reflexivity.
Defined.

(** C3 as stated fails: on the off-peak request, without perturbation,
    the estimator does not return stage 2 with confidence 0.70. *)
Lemma off_peak_example_not_stage_2 :
  unperturbed calm /\
  dict_lookup "demand_forecast" offpeak_request = Some (VInt 31000) /\
  dict_lookup "generation_capacity" offpeak_request = Some (VInt 28000) /\
  to_datetime (VStr "2024-06-15T02:00") = Ok (Timestamp 2 5 6) /\
  exists r,
    fallback calm offpeak_request = Ok r /\
    predicted_stage r = 3 /\ predicted_stage r <> 2 /\
    confidence_score r = 0.65%float /\ confidence_score r <> 0.70%float.
Proof.
  split_and!; [by vm_compute..|].
  eexists. split; [vm_compute; reflexivity|].
  cbn [predicted_stage confidence_score]. split_and!; [done..|].
  intros H. apply (f_equal Prim2SF) in H. vm_compute in H. discriminate H.
Qed.

(** The off-peak request gives stage 3 with confidence 0.65. *)
Lemma off_peak_example_witness :
  fallback calm offpeak_request =
    Ok {| predicted_stage := 3;
          confidence_score := 0.65;
          model_used := "rule_based_fallback";
          timestamp := isoformat (now calm);
          features_used := None;
          deficit_ratio := Some (VFloat 0.0968);
          is_peak_hour := Some false;
          error := None |}.
Proof.
  apply (off_peak_example to_datetime parse_int isoformat calm offpeak_request
           (VStr "2024-06-15T02:00") 5 6 (VInt 31000) (VInt 28000)).
  - apply list_elem_of_here.
  - apply list_elem_of_here.
  - reflexivity.
  - reflexivity.
  - reflexivity.
  - reflexivity.
  - vm_compute. reflexivity.
Defined.

(** C6 as stated fails: with the cache service disconnected the model
    answers and nothing is stored under the record's key. *)
Lemma model_success_without_cache_write :
  exists r cache' key,
    predict xgboost_only disconnected calm peak_request = Ok (r, cache') /\
    model_used r = "xgboost" /\
    cache_key hash repr peak_request = Ok key /\
    redis_client cache' !! key = None.
Proof.
  eexists _, _, _. split; [vm_compute; reflexivity|].
  split; [reflexivity|]. split; [vm_compute; reflexivity|].
  vm_compute. reflexivity.
Qed.

(** With the cache connected the answer of the sample classifier is
    stored for 300 seconds. *)
Lemma model_success_postcondition_witness :
  predict xgboost_only connected calm peak_request =
    Ok (stage3_result,
        cache_after_write connected calm "prediction:54" stage3_result) /\
  model_used stage3_result = "xgboost" /\
  redis_client (cache_after_write connected calm "prediction:54" stage3_result)
    !! "prediction:54" = Some {| e_value := stage3_result; e_expires := 1300 |}.
Proof.
  destruct (model_success_postcondition hash repr to_datetime parse_int
              isoformat xgboost_only connected calm peak_request
              "prediction:54" peak_features "xgboost" stage3_result)
    as (Hp & _ & Hu & _ & _ & Hw).
  - vm_compute. reflexivity.
  - vm_compute. reflexivity.
  - vm_compute. reflexivity.
  - apply (first_here _ _ _ _ _ _ _ stage3_model); vm_compute; reflexivity.
  - split; [exact Hp|]. split; [exact Hu | exact Hw].
Defined.

(** C4 as stated fails, in two ways. Two calls on the same record, one
    minute apart, return different stages when only the second draws the
    perturbation. And two calls on the same record, two seconds apart,
    return different stages when the entry that the first one reads was
    stored for another record with the same key and expires in between. *)
Lemma repeated_call_changes_stage :
  (now calm <= now noisy < now calm + 300 /\
   exists r1 cache1 r2 cache2,
     predict no_models connected calm offpeak_request = Ok (r1, cache1) /\
     predict no_models cache1 noisy offpeak_request = Ok (r2, cache2) /\
     model_used r1 = "rule_based_fallback" /\
     model_used r2 = "rule_based_fallback" /\
     predicted_stage r1 = 3 /\
     predicted_stage r2 = 4 /\
     predicted_stage r1 <> predicted_stage r2) /\
  (cache_key hash repr offpeak_request = cache_key hash repr peak_request /\
   now at_900 <= now at_1199 /\
   now at_1199 <= now at_1201 < now at_1199 + 300 /\
   exists r0 cache0 r1 r2 cache2,
     predict hourly connected at_900 offpeak_request = Ok (r0, cache0) /\
     predict hourly cache0 at_1199 peak_request = Ok (r1, cache0) /\
     predict hourly cache0 at_1201 peak_request = Ok (r2, cache2) /\
     r1 = r0 /\
     model_used r1 = "xgboost" /\
     model_used r2 = "xgboost" /\
     predicted_stage r1 = 2 /\
     predicted_stage r2 = 8 /\
     predicted_stage r1 <> predicted_stage r2).
Proof.
  split.
  - split; [by vm_compute|].
    eexists _, _, _, _. split; [vm_compute; reflexivity|].
    split; [vm_compute; reflexivity|]. by cbn.
  - split; [vm_compute; reflexivity|]. split; [by vm_compute|].
    split; [by vm_compute|].
    eexists _, _, _, _, _. split; [vm_compute; reflexivity|].
    split; [vm_compute; reflexivity|].
    split; [vm_compute; reflexivity|]. by cbn.
Qed.

(** Two calls on the two orders of the peak-hour request, two seconds
    apart, around the expiry of the entry stored for it at 900: the first
    reads the entry, the second computes, and they agree. *)
Lemma repeat_within_ttl_witness :
  exists r1 cache1 r2 cache2,
    predict xgboost_only warm at_1199 peak_request = Ok (r1, cache1) /\
    predict xgboost_only cache1 at_1201 peak_request_reordered = Ok (r2, cache2) /\
    cache_get warm at_1199 "prediction:54" = Ok (Some r1) /\
    cache_get cache1 at_1201 "prediction:54" = Ok None /\
    model_used r1 = model_used r2 /\
    predicted_stage r1 = predicted_stage r2 /\
    confidence_score r1 = confidence_score r2.
Proof.
  destruct (repeat_within_ttl hash repr to_datetime parse_int isoformat
              xgboost_only warm at_1199 at_1201 peak_request
              peak_request_reordered "prediction:54")
    as (r1 & cache1 & r2 & cache2 & H1 & H2 & _ & Hu & Hm & _).
  - unfold dict_wf. apply (bool_decide_unpack _). vm_compute. exact I.
  - unfold dict_wf. apply (bool_decide_unpack _). vm_compute. exact I.
  - exact peak_request_same_map.
  - vm_compute. reflexivity.
  - intros e He _.
    assert (redis_client warm !! "prediction:54" =
            Some {| e_value := stage3_at_900; e_expires := 1200 |}) as Hl
      by (vm_compute; reflexivity).
    rewrite Hl in He. injection He as <-. cbn [e_value].
    exists peak_features, at_900, "xgboost".
    split; [vm_compute; reflexivity|].
    apply (first_here _ _ _ _ _ _ _ stage3_model); vm_compute; reflexivity.
  - cbn. lia.
  - assert (predict xgboost_only warm at_1199 peak_request =
            Ok (stage3_at_900, warm)) as H1' by (vm_compute; reflexivity).
    rewrite H1' in H1. injection H1 as <- <-.
    exists stage3_at_900, warm, r2, cache2.
    split; [exact H1'|]. split; [exact H2|].
    split; [vm_compute; reflexivity|]. split; [vm_compute; reflexivity|].
    split; [exact Hu|]. apply Hm. apply list_elem_of_here.
Defined.

End Examples.

(** * Further properties *)

(** ** The cache service *)

Lemma cache_get_connected cache w key :
  is_connected cache = true -> redis_get_up w = true ->
  cache_get cache w key =
  Ok (match redis_client cache !! key with
      | Some e => if now w <? e_expires e then Some (e_value e) else None
      | None => None
      end).
Proof.
  intros Hc Hg. unfold cache_get, redis_get. rewrite Hc, Hg.
  cbn [negb bind try_except].
  destruct (redis_client cache !! key) as [e|]; [|done].
  by destruct (now w <? e_expires e).
Qed.

(** X1. Round trip of [set] and [get] on a connected service whose server
    answers. When [json.dumps] accepts the value and the TTL is not
    negative, [set] returns [True] and the value written at time [now w1]
    is read back at time [now w2] exactly while the TTL has not run out; a
    TTL of 0 stands for [settings.CACHE_TTL]. When [json.dumps] raises (an
    [int] of more than 4300 digits in the value) or the TTL is negative
    (the server refuses it), [set] returns [False] and nothing changes. *)
Theorem cache_set_get_roundtrip cache w1 w2 key v ttl :
  is_connected cache = true ->
  redis_set_up w1 = true ->
  redis_get_up w2 = true ->
  (0 <= ttl -> json_dumps v = Ok v ->
   exists cache',
     cache_set cache w1 key v ttl = Ok (true, cache') /\
     is_connected cache' = true /\
     cache_get cache' w2 key =
       Ok (if now w2 <? now w1 + (if ttl =? 0 then CACHE_TTL else ttl)
           then Some v else None)) /\
  (ttl < 0 \/ (exists e, json_dumps v = Raise e) ->
   cache_set cache w1 key v ttl = Ok (false, cache)) /\
  (json_dumps v = Ok v <->
   int_str_ok (predicted_stage v) = true /\
   from_option int_str_ok true (features_used v) = true /\
   from_option json_scalar_ok true (deficit_ratio v) = true).
Proof.
  intros Hc Hs Hg. unfold cache_set, redis_setex. rewrite Hc, Hs.
  cbn [negb]. split_and!.
  - intros Httl Hj. rewrite Hj. cbn [bind].
    assert ((0 <? (if ttl =? 0 then CACHE_TTL else ttl)) = true) as ->.
    { apply Z.ltb_lt. unfold CACHE_TTL. destruct (Z.eqb_spec ttl 0); lia. }
    cbn [bind try_except]. eexists. split; [done|]. split; [done|].
    rewrite cache_get_connected by done. cbn [redis_client].
    by rewrite lookup_insert_eq.
  - intros [Httl | [e He]].
    + destruct (json_dumps v); cbn [bind try_except]; [|done].
      assert ((0 <? (if ttl =? 0 then CACHE_TTL else ttl)) = false) as ->.
      { apply Z.ltb_ge. destruct (Z.eqb_spec ttl 0); lia. }
      done.
    + by rewrite He.
  - unfold json_dumps.
    destruct (int_str_ok (predicted_stage v)),
             (from_option int_str_ok true (features_used v)),
             (from_option json_scalar_ok true (deficit_ratio v));
      cbn [andb]; split; try done; intros (? & ? & ?); done.
Qed.

(** X2. [set] touches one key: whatever the flags, every other key reads
    the same before and after, and the connection flag is kept. *)
Theorem cache_set_frame cache w1 w2 key key' v ttl :
  key' <> key ->
  exists written cache',
    cache_set cache w1 key v ttl = Ok (written, cache') /\
    is_connected cache' = is_connected cache /\
    cache_get cache' w2 key' = cache_get cache w2 key'.
Proof.
  intros Hne. unfold cache_set, redis_setex.
  destruct (is_connected cache) eqn:Hc; cbn [negb]; [|by eexists _, _].
  destruct (json_dumps v) as [text|]; cbn [bind try_except]; [|by eexists _, _].
  destruct (redis_set_up w1); cbn [bind try_except]; [|by eexists _, _].
  destruct (0 <? _); cbn [bind try_except]; [|by eexists _, _].
  eexists _, _. split; [done|]. split; [done|].
  unfold cache_get, redis_get. rewrite Hc. cbn [is_connected redis_client negb].
  by rewrite lookup_insert_ne.
Qed.

(** X3. [delete] on a connected service whose server answers: the key reads
    as absent afterwards and every other key reads as before. *)
Theorem cache_delete_get cache w key :
  is_connected cache = true ->
  exists cache',
    cache_delete cache true key = Ok (true, cache') /\
    cache_get cache' w key = Ok None /\
    forall key', key' <> key -> cache_get cache' w key' = cache_get cache w key'.
Proof.
  intros Hc. unfold cache_delete, redis_delete. rewrite Hc.
  cbn [negb bind try_except foldr]. eexists. split; [done|].
  unfold cache_get, redis_get. rewrite Hc. cbn [is_connected redis_client negb].
  split.
  - destruct (redis_get_up w); cbn [bind try_except]; [|done].
    by rewrite lookup_delete_eq.
  - intros key' Hne. by rewrite lookup_delete_ne.
Qed.

(** X4. A service whose first [ping] failed stays out of Redis for good:
    whatever the server does later, [get] misses, [set], [delete] and
    [clear_pattern] report [False] and change nothing, and [health_check]
    says [disconnected]. *)
Theorem disconnected_service_is_inert glob store :
  exists cache,
    CacheService_init false store = Ok cache /\
    is_connected cache = false /\
    (forall w key, cache_get cache w key = Ok None) /\
    (forall w key v ttl, cache_set cache w key v ttl = Ok (false, cache)) /\
    (forall up key, cache_delete cache up key = Ok (false, cache)) /\
    (forall t up1 up2 pattern,
       clear_pattern glob cache t up1 up2 pattern = Ok (false, cache)) /\
    (forall ping, exists d,
       health_check cache ping = Ok d /\
       dict_lookup "status" d = Some (VStr "disconnected")).
Proof.
  eexists. split; [reflexivity|]. split_and!; try done.
  intros ping. by eexists.
Qed.

(** X5. A server that does not answer never surfaces as an exception and
    never changes what the service holds: [get] misses, [set] and [delete]
    report [False], and [health_check] reports [unhealthy] together with
    [str(e)] of the exception [e] that the client's [ping] raised. *)
Theorem server_failure_is_contained cache w key v ttl e :
  is_connected cache = true ->
  redis_get_up w = false ->
  redis_set_up w = false ->
  cache_get cache w key = Ok None /\
  cache_set cache w key v ttl = Ok (false, cache) /\
  cache_delete cache false key = Ok (false, cache) /\
  health_check cache (Raise e) =
    Ok [("status", VStr "unhealthy"); ("error", VStr (exn_str e))].
Proof.
  intros Hc Hg Hs.
  unfold cache_get, cache_set, cache_delete, health_check, redis_get,
    redis_setex, redis_delete.
  rewrite Hc, Hg, Hs. cbn [negb bind try_except]. split_and!; try done.
  by destruct (json_dumps v).
Qed.

(** [health_check] of the cache service always returns, and its status
    is [healthy] exactly when the service is connected and the [ping] goes
    through. *)
Lemma cache_health_check_status cache ping :
  exists d,
    health_check cache ping = Ok d /\
    dict_lookup "status" d =
      Some (VStr (if negb (is_connected cache) then "disconnected"
                  else match ping with
                       | Ok _ => "healthy"
                       | Raise _ => "unhealthy"
                       end)).
Proof.
  unfold health_check.
  destruct (is_connected cache), ping; cbn [negb bind try_except];
    by eexists.
Qed.

Lemma lookup_foldr_delete_in (m : gmap string entry) (ks : list string) k :
  k ∈ ks -> foldr delete m ks !! k = None.
Proof.
  induction ks as [|k' ks IH]; cbn [foldr]; [by intros ?%elem_of_nil|].
  intros [-> | Hin]%elem_of_cons; [by rewrite lookup_delete_eq|].
  destruct (decide (k' = k)) as [->|Hne]; [by rewrite lookup_delete_eq|].
  rewrite lookup_delete_ne by done. by apply IH.
Qed.

Lemma lookup_foldr_delete_notin (m : gmap string entry) (ks : list string) k :
  k ∉ ks -> foldr delete m ks !! k = m !! k.
Proof.
  induction ks as [|k' ks IH]; cbn [foldr]; [done|].
  intros [Hne Hin]%not_elem_of_cons. rewrite lookup_delete_ne by done.
  by apply IH.
Qed.

Lemma elem_of_redis_keys glob t (store : gmap string entry) pattern keys k :
  redis_keys glob true t store pattern = Ok keys ->
  k ∈ keys <->
  exists e, store !! k = Some e /\ glob pattern k = true /\ t < e_expires e.
Proof.
  unfold redis_keys. intros [= <-]. rewrite list_elem_of_fmap. split.
  - intros ([k' e] & -> & Hin). apply list_elem_of_In, filter_In in Hin as [Hin Hc].
    apply list_elem_of_In, elem_of_map_to_list in Hin.
    apply andb_prop in Hc as [Hg Ht]. apply Z.ltb_lt in Ht. by exists e.
  - intros (e & Hl & Hg & Ht). exists (k, e). split; [done|].
    apply list_elem_of_In, filter_In. split.
    + by apply list_elem_of_In, elem_of_map_to_list.
    + cbn [fst snd]. rewrite Hg. by apply Z.ltb_lt in Ht as ->.
Qed.

(** X6. [clear_pattern] on a connected service whose server answers: every
    key that matches the pattern reads as absent from then on, and the keys
    that do not match keep their entries. *)
Theorem clear_pattern_clears glob cache t pattern :
  is_connected cache = true ->
  exists cache',
    clear_pattern glob cache t true true pattern = Ok (true, cache') /\
    (forall w key, glob pattern key = true -> t <= now w ->
                   cache_get cache' w key = Ok None) /\
    (forall key, glob pattern key = false ->
                 redis_client cache' !! key = redis_client cache !! key).
Proof.
  intros Hc. unfold clear_pattern. rewrite Hc. cbn [negb].
  destruct (redis_keys glob true t (redis_client cache) pattern) as [keys|e] eqn:Hk;
    [|discriminate Hk].
  pose proof (fun k => elem_of_redis_keys glob t _ pattern keys k Hk) as Hkeys.
  cbn [bind try_except].
  assert (exists store,
            match keys with
            | [] => Ok (redis_client cache)
            | _ :: _ => redis_delete true (redis_client cache) keys
            end = Ok store /\
            forall k, store !! k =
                      if decide (k ∈ keys) then None else redis_client cache !! k)
    as (store & -> & Hstore).
  { destruct keys as [|k0 keys'].
    - eexists. split; [done|]. intros k. rewrite decide_False; [done|].
      by intros ?%elem_of_nil.
    - eexists. split; [reflexivity|]. intros k.
      destruct (decide (k ∈ k0 :: keys')) as [Hin|Hin].
      + by apply lookup_foldr_delete_in.
      + by apply lookup_foldr_delete_notin. }
  cbn [bind try_except]. eexists. split; [done|]. split.
  - intros w key Hg Ht. unfold cache_get, redis_get.
    cbn [is_connected redis_client negb].
    destruct (redis_get_up w); cbn [bind try_except]; [|done].
    rewrite Hstore. destruct (decide (key ∈ keys)) as [Hin|Hin]; [done|].
    destruct (redis_client cache !! key) as [e|] eqn:He; [|done].
    destruct (now w <? e_expires e) eqn:Hlive; [|done].
    apply Z.ltb_lt in Hlive. exfalso. apply Hin, Hkeys. exists e.
    split; [done|]. split; [done|lia].
  - intros key Hg. cbn [redis_client]. rewrite Hstore.
    rewrite decide_False; [done|]. intros (e & _ & Hg' & _)%Hkeys. congruence.
Qed.

(** ** Loading the models and reporting them *)

(** X7. [MLService.__init__] never fails and loads all or nothing: when
    [joblib.load] raises on any of the three artifacts the registry is
    empty, the artifacts loaded before it included; otherwise the registry
    holds exactly the artifacts that exist, under the names [xgboost],
    [random_forest] and [scaler]. *)
Theorem load_models_all_or_nothing dir :
  exists self,
    MLService_init dir = Ok self /\
    if (is_corrupt (xgboost_model_pkl dir)
        || is_corrupt (random_forest_model_pkl dir)
        || is_corrupt (scaler_pkl dir))%bool
    then models self = ∅
    else forall name,
        models self !! name =
        if decide (name = "scaler") then artifact_object (scaler_pkl dir)
        else if decide (name = "random_forest")
             then artifact_object (random_forest_model_pkl dir)
        else if decide (name = "xgboost")
             then artifact_object (xgboost_model_pkl dir)
        else None.
Proof.
  unfold MLService_init, load_models, load_artifact.
  destruct (xgboost_model_pkl dir) as [|x|ex],
           (random_forest_model_pkl dir) as [|r|er],
           (scaler_pkl dir) as [|c|ec];
    cbn [bind try_except is_corrupt orb artifact_object models];
    eexists; (split; [reflexivity|]); try reflexivity;
    intros name; cbn [models];
    rewrite ?lookup_insert, ?lookup_empty;
    repeat (case_decide; subst; try done).
Qed.

Section StatusProperties.

Variable type_name : estimator -> string.
Variable parse_int : string -> Exc Z.
Variable isoformat : Z -> string.

(** X8. [get_model_status] mirrors the registry: [models_loaded] is the
    number of entries (the scaler counts as one), [available_models] lists
    each registered name once, and [model_details] has one entry per name,
    [preprocessor] for the name [scaler] and the type and the
    [predict_proba] capability for any other. *)
Theorem model_status_matches_registry self :
  let st := get_model_status type_name self in
  models_loaded st = size (models self) /\
  length (available_models st) = models_loaded st /\
  NoDup (available_models st) /\
  (forall name, name ∈ available_models st <-> is_Some (models self !! name)) /\
  (forall name,
     model_details st !! name =
     (fun model =>
        if String.eqb name "scaler" then Preprocessor
        else Predictor (type_name model) (hasattr_predict_proba model))
       <$> models self !! name).
Proof.
  cbv zeta. unfold get_model_status.
  cbn [models_loaded available_models model_details]. split_and!.
  - done.
  - by rewrite length_fmap, length_map_to_list.
  - apply NoDup_fst_map_to_list.
  - intros name. rewrite list_elem_of_fmap. split.
    + intros ([k model] & -> & Hin%elem_of_map_to_list). by exists model.
    + intros [model Hm]. exists (name, model). split; [done|].
      by apply elem_of_map_to_list.
  - intros name. rewrite map_lookup_imap.
    by destruct (models self !! name).
Qed.

(** X9. The capability that the status reports is the one the resolver
    acts on: a model reported without [predict_proba] always answers with
    confidence 0.8, and one reported with it answers with the rounded
    [np.max] of its class probabilities. *)
Theorem status_capability_decides_confidence self name type capable
  model w features r :
  model_details (get_model_status type_name self) !! name =
    Some (Predictor type capable) ->
  models self !! name = Some model ->
  model_attempt parse_int isoformat w model name features = Ok r ->
  if capable
  then exists proba row c,
      predict_proba model = Some proba /\ proba features = Ok row /\
      np_max row = Ok c /\ confidence_score r = round_float c 3
  else confidence_score r = 0.8%float.
Proof.
  intros Hd Hm Ha.
  unfold get_model_status in Hd. cbn [model_details] in Hd.
  rewrite map_lookup_imap, Hm in Hd. cbn in Hd.
  destruct (String.eqb name "scaler"); [discriminate Hd|].
  injection Hd as _ <-.
  apply model_attempt_spec in Ha as (_ & _ & _ & label & k & _ & _ & _ & Hc).
  unfold hasattr_predict_proba. destruct (predict_proba model) as [proba|].
  - destruct Hc as (row & c & ? & ? & ?). by exists proba, row, c.
  - done.
Qed.

End StatusProperties.

(** ** More on the resolver *)

Section Resolver.

Variable hash : string -> Z.
Variable repr : value -> Exc string.
Variable to_datetime : value -> Exc pdtime.
Variable parse_int : string -> Exc Z.
Variable isoformat : Z -> string.

Local Abbreviation cache_key := (cache_key hash repr).
Local Abbreviation unscaled_features := (unscaled_features to_datetime).
Local Abbreviation prepare_features := (prepare_features to_datetime).
Local Abbreviation rule_based_estimate :=
  (rule_based_estimate to_datetime parse_int isoformat).
Local Abbreviation _fallback_prediction :=
  (_fallback_prediction to_datetime parse_int isoformat).
Local Abbreviation emergency_result := (emergency_result isoformat).
Local Abbreviation model_attempt := (model_attempt parse_int isoformat).
Local Abbreviation try_models := (try_models parse_int isoformat).
Local Abbreviation first_success := (first_success parse_int isoformat).
Local Abbreviation predict_loadshedding :=
  (predict_loadshedding hash repr to_datetime parse_int isoformat).

Lemma py_le_int a b : py_le (VInt a) (VInt b) = Ok (a <=? b).
Proof.
  unfold py_le, py_order, as_num, num_compare, Z.leb.
  by destruct (a ?= b).
Qed.

Lemma py_lt_int a b : py_lt (VInt a) (VInt b) = Ok (a <? b).
Proof.
  unfold py_lt, py_order, as_num, num_compare, Z.ltb.
  by destruct (a ?= b).
Qed.

Lemma peak_hours_int h :
  peak_hours (VInt h) =
  Ok ((6 <=? h) && (h <=? 10) || (17 <=? h) && (h <=? 21))%bool.
Proof.
  unfold peak_hours, between. rewrite !py_le_int.
  destruct (6 <=? h), (h <=? 10), (17 <=? h), (h <=? 21); reflexivity.
Qed.

Lemma peak_hours_nan : peak_hours (VFloat nan) = Ok false.
Proof. vm_compute. reflexivity. Qed.

Lemma py_lt_nan_5 : py_lt (VFloat nan) (VInt 5) = Ok false.
Proof. vm_compute. reflexivity. Qed.

Lemma try_models_Some self cache w key features names r cache' :
  try_models self cache w key features names = Ok (Some (r, cache')) ->
  exists name, first_success self w features names name r.
Proof.
  induction names as [|skipped rest IH]; cbn [try_models]; [done|].
  destruct (models self !! skipped) as [model|] eqn:Hm.
  - destruct (model_attempt w model skipped features) as [r'|e] eqn:Ha;
      cbn [bind try_except].
    + rewrite cache_set_spec by (by eapply (model_attempt_json parse_int isoformat)). cbn [bind snd]. intros [= <- <-].
      exists skipped. by eapply first_here.
    + intros [name Hfs]%IH. exists name. apply first_later; [|done].
      right. by exists model, e.
  - intros [name Hfs]%IH. exists name. apply first_later; [by left|done].
Qed.


(** X11. A record without the key ["datetime"] is answered without looking
    at any of its fields: on a cache miss the result is the answer of the
    first model that accepts the default vector (which is not passed
    through the scaler), or else the emergency result; it is never a
    rule-based estimate. *)
Theorem missing_datetime_ignores_fields self cache w data key :
  dict_lookup "datetime" data = None ->
  cache_key data = Ok key ->
  cache_get cache w key = Ok None ->
  exists r cache',
    predict_loadshedding self cache w data = Ok (r, cache') /\
    predict_loadshedding self cache w data =
      match try_models self cache w key default_features model_preferences with
      | Ok (Some answer) => Ok answer
      | _ => Ok (emergency_result w (KeyError "datetime"), cache)
      end /\
    ((exists name, first_success self w default_features model_preferences name r)
     \/ r = emergency_result w (KeyError "datetime")) /\
    model_used r <> "rule_based_fallback".
Proof.
  intros Hk Hkey Hget.
  assert (prepare_features self data = Ok default_features) as Hf.
  { unfold prepare_features, unscaled_features, dict_getitem. by rewrite Hk. }
  assert (_fallback_prediction w data =
          Ok (emergency_result w (KeyError "datetime"))) as Hfb.
  { unfold _fallback_prediction, rule_based_estimate, dict_getitem.
    by rewrite Hk. }
  rewrite (predict_unfold_miss hash repr to_datetime parse_int isoformat
             self cache w data key default_features) by done.
  rewrite Hfb. cbn [bind].
  destruct (try_models self cache w key default_features model_preferences)
    as [[[r cache']|]|] eqn:Ht.
  - exists r, cache'. split; [done|]. split; [done|].
    pose proof (try_models_Some _ _ _ _ _ _ _ _ Ht) as [name Hfs].
    split; [left; by exists name|].
    apply first_success_registered in Hfs as (Hin & model & _ & Ha).
    apply model_attempt_spec in Ha as (-> & _).
    by apply model_name_not_fallback.
  - eexists _, _. split; [done|]. split; [done|]. split; [by right|]. done.
  - eexists _, _. split; [done|]. split; [done|]. split; [by right|]. done.
Qed.

(** X12. The preference order: when [xgboost] is registered and answers,
    the resolver returns its answer whatever is registered under
    [random_forest]; only the [xgboost] and [scaler] entries matter. *)
Theorem xgboost_answer_shadows_random_forest self self' cache w data key
  features model r :
  models self !! "xgboost" = Some model ->
  models self' !! "xgboost" = Some model ->
  models self' !! "scaler" = models self !! "scaler" ->
  cache_key data = Ok key ->
  cache_get cache w key = Ok None ->
  prepare_features self data = Ok features ->
  model_attempt w model "xgboost" features = Ok r ->
  predict_loadshedding self cache w data =
    Ok (r, cache_after_write cache w key r) /\
  predict_loadshedding self' cache w data =
    Ok (r, cache_after_write cache w key r).
Proof.
  intros Hm Hm' Hsc Hk Hg Hf Ha.
  assert (prepare_features self' data = Ok features) as Hf'.
  { rewrite <- Hf. unfold prepare_features. by rewrite Hsc. }
  split.
  - rewrite (predict_unfold_miss hash repr to_datetime parse_int isoformat
               self cache w data key features) by done.
    rewrite (try_models_first_success parse_int isoformat self cache w key
               features model_preferences "xgboost" r); [done|].
    by eapply first_here.
  - rewrite (predict_unfold_miss hash repr to_datetime parse_int isoformat
               self' cache w data key features) by done.
    rewrite (try_models_first_success parse_int isoformat self' cache w key
               features model_preferences "xgboost" r); [done|].
    by eapply first_here.
Qed.


Ltac peel H :=
  let x := fresh "x" in
  let E := fresh "E" in
  apply bind_Ok in H as (x & E & H); try rewrite E; cbn [bind].

Lemma perturbed_confidence_lower c :
  c ∈ confidence_levels ->
  (round_float (c * 0.9) 3 <=? round_float c 3)%float = true.
Proof.
  assert (forallb (fun c => (round_float (c * 0.9) 3 <=? round_float c 3)%float)
            confidence_levels = true) as Hall by (vm_compute; reflexivity).
  rewrite forallb_forall in Hall. intros Hc%list_elem_of_In. by apply Hall.
Qed.

(** X14. The size of the perturbation. When the estimator answers without
    perturbation, it answers with perturbation as well, and the perturbed
    answer differs as follows: the stage moves by one step down or up and is
    clamped to [0, 8], so by at most 1; the confidence is the rounding of
    0.9 times the table value instead of the rounding of the table value,
    and is not larger; the diagnostics are the same. *)
Theorem perturbation_magnitude w1 w2 data r1 :
  rule_based_estimate w1 data = Ok r1 ->
  unperturbed w1 ->
  (random_random w2 <? 0.1)%float = true ->
  exists r2 c,
    rule_based_estimate w2 data = Ok r2 /\
    (predicted_stage r2 = Z.max 0 (Z.min 8 (predicted_stage r1 - 1)) \/
     predicted_stage r2 = Z.max 0 (Z.min 8 (predicted_stage r1 + 1))) /\
    Z.abs (predicted_stage r2 - predicted_stage r1) <= 1 /\
    c ∈ confidence_levels /\
    confidence_score r1 = round_float c 3 /\
    confidence_score r2 = round_float (c * 0.9) 3 /\
    (confidence_score r2 <=? confidence_score r1)%float = true /\
    deficit_ratio r2 = deficit_ratio r1 /\
    is_peak_hour r2 = is_peak_hour r1 /\
    model_used r2 = model_used r1.
Proof.
  unfold rule_based_estimate, unperturbed. intros H Hu Hp.
  do 7 peel H.
  apply bind_Ok in H as (adjusted & Hadj & H). rewrite Hadj. cbn [bind].
  apply bind_Ok in H as ([k c] & Hsc & H). rewrite Hsc. cbn [bind].
  rewrite Hu in H. rewrite Hp. cbn [fst snd] in *.
  peel H. injection H as <-.
  apply adjusted_ratio_float in Hadj as [a ->].
  apply stage_of_ratio_bounds in Hsc as [Hk Hc].
  pose proof (choice_In (randbelow_shift w2) [-1; 1] 0) as Hin.
  cbn [length In] in Hin.
  eexists _, c. split; [reflexivity|].
  cbn [predicted_stage confidence_score deficit_ratio is_peak_hour model_used].
  split_and!; try done.
  - destruct Hin as [<- | [<- | []]]; [lia| by left | by right].
  - lia.
  - by apply perturbed_confidence_lower.
Qed.

Lemma py_gt_int a b : py_gt (VInt a) (VInt b) = Ok (b <? a).
Proof.
  unfold py_gt, py_order, as_num, num_compare, is_Gt. f_equal.
  rewrite Z.ltb_antisym, Z.leb_compare. by destruct (a ?= b).
Qed.

Lemma zero_ratio_stage is_peak deficit_ratio :
  deficit_ratio = VFloat 0 \/ deficit_ratio = VInt 0 ->
  (do adjusted_ratio <- adjusted_ratio_of deficit_ratio is_peak;
   stage_of_ratio parse_int adjusted_ratio) = Ok (0, 0.85%float).
Proof. by intros [-> | ->]; destruct is_peak; vm_compute. Qed.

(** X15. The zero-deficit case. When demand and generation are integers
    (read from the record, or the defaults) and demand does not exceed
    generation, the rule-based estimator answers for every timestamp that
    parses, [NaT] included: the deficit ratio is zero, so without
    perturbation the stage is 0 with confidence 0.85, and with perturbation
    the stage is 0 or 1 with confidence 0.765. The peak flag is that of the
    hour; the hour of [NaT] is NaN, which is in no peak window. *)
Theorem zero_deficit_is_stage_0 w data raw dt d g :
  dict_lookup "datetime" data = Some raw ->
  to_datetime raw = Ok dt ->
  dict_get data "demand_forecast" (VInt 30000) = VInt d ->
  dict_get data "generation_capacity" (VInt 28000) = VInt g ->
  d <= g ->
  exists r,
    _fallback_prediction w data = Ok r /\
    model_used r = "rule_based_fallback" /\
    deficit_ratio r = Some (if 0 <? d then VFloat 0 else VInt 0) /\
    is_peak_hour r =
      Some (match dt with
            | Timestamp h _ _ => (6 <=? h) && (h <=? 10) || (17 <=? h) && (h <=? 21)
            | NaT => false
            end)%bool /\
    (unperturbed w ->
     predicted_stage r = 0 /\ confidence_score r = 0.85%float) /\
    ((random_random w <? 0.1)%float = true ->
     (predicted_stage r = 0 \/ predicted_stage r = 1) /\
     confidence_score r = 0.765%float).
Proof.
  intros Hraw Hdt Hd Hg Hle.
  unfold _fallback_prediction, rule_based_estimate, dict_getitem.
  rewrite Hraw. cbn [bind]. rewrite Hdt. cbn [bind]. rewrite Hd, Hg.
  change (py_sub (VInt d) (VInt g)) with (Ok (VInt (d - g))). cbn [bind].
  unfold py_max. rewrite !py_gt_int.
  replace (0 <? d - g) with false by (symmetry; apply Z.ltb_ge; lia).
  cbn [bind].
  assert (peak_hours (dt_hour dt) =
          Ok (match dt with
              | Timestamp h _ _ => (6 <=? h) && (h <=? 10) || (17 <=? h) && (h <=? 21)
              | NaT => false
              end)%bool) as Hpeak.
  { destruct dt as [h dow m|]; cbn [dt_hour];
      [apply peak_hours_int | apply peak_hours_nan]. }
  set (is_peak := match dt with Timestamp h _ _ => _ | NaT => false end) in *.
  assert ((if 0 <? d then py_truediv (VInt 0) (VInt d) else Ok (VInt 0)) =
          Ok (if 0 <? d then VFloat 0 else VInt 0)) as Hratio.
  { destruct (0 <? d) eqn:Hpos; [|done]. apply Z.ltb_lt in Hpos.
    unfold py_truediv, int_true_div. cbn [as_num].
    replace (d =? 0) with false by (symmetry; apply Z.eqb_neq; lia).
    replace (d <? 0) with false by (symmetry; apply Z.ltb_ge; lia).
    reflexivity. }
  rewrite Hratio. cbn [bind]. rewrite Hpeak. cbn [bind].
  set (ratio := if 0 <? d then VFloat 0 else VInt 0).
  assert (ratio = VFloat 0 \/ ratio = VInt 0) as Hz
      by (unfold ratio; destruct (0 <? d); auto).
  pose proof (zero_ratio_stage is_peak ratio Hz) as Hstage.
  apply bind_Ok in Hstage as (adjusted & -> & Hstage). cbn [bind].
  rewrite Hstage. cbn [bind fst snd].
  assert (exists rounded, py_round ratio 4 = Ok rounded /\ rounded = ratio)
    as (rounded & Hround & ->).
  { destruct Hz as [-> | ->]; eexists; (split; [reflexivity|]); [|done].
    vm_compute. reflexivity. }
  pose proof (choice_In (randbelow_shift w) [-1; 1] 0) as Hin.
  cbn [length In] in Hin.
  unfold unperturbed.
  destruct (random_random w <? 0.1)%float; rewrite Hround;
    cbn [bind try_except]; eexists; (split; [reflexivity|]);
    cbn [predicted_stage confidence_score deficit_ratio is_peak_hour model_used];
    split_and!; try done.
  intros _. split; [|by vm_compute].
  destruct Hin as [<- | [<- | []]]; [lia| by left | by right].
Qed.

(** X16. The cache key is all the resolver looks at before it answers
    from the cache. Once a model's answer has been stored for a record, any
    record with the same key, whatever its fields and whatever the registry
    then holds, is given that stored answer until the entry expires, and the
    cache is left as it is. *)
Theorem stored_answer_served_by_key self self' cache w1 w2 data data' key
  r1 cache1 :
  cache_key data = Ok key ->
  cache_key data' = Ok key ->
  cache_get cache w1 key = Ok None ->
  predict_loadshedding self cache w1 data = Ok (r1, cache1) ->
  model_used r1 ∈ model_preferences ->
  is_connected cache = true ->
  redis_set_up w1 = true ->
  redis_get_up w2 = true ->
  now w2 < now w1 + 300 ->
  predict_loadshedding self' cache1 w2 data' = Ok (r1, cache1).
Proof.
  intros Hk Hk' Hmiss H1 Hm Hc Hs Hg Ht.
  destruct (prepare_features_total to_datetime self data) as [features Hf].
  rewrite (predict_unfold_miss hash repr to_datetime parse_int isoformat
             self cache w1 data key features) in H1 by done.
  pose proof (try_models_world parse_int isoformat self cache cache w1 w1 key
                features model_preferences) as Hw.
  destruct (try_models self cache w1 key features model_preferences)
    as [[[r c]|]|] eqn:Htry.
  - destruct Hw as (_ & _ & ->). injection H1 as -> <-.
    unfold predict_loadshedding. rewrite Hk'. cbn [bind].
    by rewrite cache_get_hit.
  - apply bind_Ok in H1 as (r & Hr & [= -> ->]).
    by apply (fallback_not_model to_datetime parse_int isoformat) in Hr.
  - done.
Qed.

(** X17. A demand or a generation that is present but is not a number
    ([None] or a string: [dict.get] falls back to the default only when the
    key is absent) makes the subtraction raise [TypeError], and the answer
    is the emergency result, although the timestamp is fine: its [error] is
    the text of that [TypeError], which names the operator and the types of
    the two operands, its confidence is 0.5 and its stage is one of 0 to
    3. *)
Theorem non_numeric_demand_is_emergency w data raw dt demand generation :
  dict_lookup "datetime" data = Some raw ->
  to_datetime raw = Ok dt ->
  dict_get data "demand_forecast" (VInt 30000) = demand ->
  dict_get data "generation_capacity" (VInt 28000) = generation ->
  as_num demand = None \/ as_num generation = None ->
  exists r,
    _fallback_prediction w data = Ok r /\
    model_used r = "emergency_fallback" /\
    error r =
      Some ("unsupported operand type(s) for -: '" +:+ py_type demand
            +:+ "' and '" +:+ py_type generation +:+ "'") /\
    confidence_score r = 0.5%float /\
    0 <= predicted_stage r <= 3.
Proof.
  intros Hraw Hdt Hd Hg Hnum.
  assert (py_sub demand generation =
          Raise (unsupported_operand "-" demand generation)) as Hsub.
  { unfold py_sub. destruct Hnum as [-> | Hn]; [done|].
    rewrite Hn. by destruct (as_num demand) as [[]|]. }
  exists (emergency_result w (unsupported_operand "-" demand generation)).
  split_and!; try done.
  - unfold _fallback_prediction, rule_based_estimate, dict_getitem.
    rewrite Hraw. cbn [bind]. rewrite Hdt. cbn [bind].
    by rewrite Hd, Hg, Hsub.
  - pose proof (choice_In (randbelow_emergency w) [0; 1; 2; 2; 3] 0) as Hin.
    cbn [length In] in Hin. cbn [emergency_result predicted_stage].
    destruct Hin as [<- | [<- | [<- | [<- | [<- | []]]]]]; lia.
  - pose proof (choice_In (randbelow_emergency w) [0; 1; 2; 2; 3] 0) as Hin.
    cbn [length In] in Hin. cbn [emergency_result predicted_stage].
    destruct Hin as [<- | [<- | [<- | [<- | [<- | []]]]]]; lia.
Qed.

Lemma load_models_corrupt dir :
  (is_corrupt (xgboost_model_pkl dir)
   || is_corrupt (random_forest_model_pkl dir)
   || is_corrupt (scaler_pkl dir))%bool = true ->
  MLService_init dir = Ok {| models := ∅ |}.
Proof.
  unfold MLService_init, load_models, load_artifact.
  by destruct (xgboost_model_pkl dir) as [|x|ex],
              (random_forest_model_pkl dir) as [|r|er],
              (scaler_pkl dir) as [|c|ec].
Qed.

(** X18. From start-up to prediction: when [joblib.load] raises on any one
    of the three artifacts, the service still starts, and every prediction
    that misses the cache comes from [_fallback_prediction], the artifacts
    that did load notwithstanding; the cache is not written. *)
Theorem corrupt_artifact_means_fallback dir cache w data key :
  (is_corrupt (xgboost_model_pkl dir)
   || is_corrupt (random_forest_model_pkl dir)
   || is_corrupt (scaler_pkl dir))%bool = true ->
  cache_key data = Ok key ->
  cache_get cache w key = Ok None ->
  exists self r,
    MLService_init dir = Ok self /\
    predict_loadshedding self cache w data = Ok (r, cache) /\
    _fallback_prediction w data = Ok r /\
    (model_used r = "rule_based_fallback" \/ model_used r = "emergency_fallback").
Proof.
  intros Hbad Hk Hg.
  destruct (fallback_total to_datetime parse_int isoformat w data) as [r Hr].
  exists {| models := ∅ |}, r. split; [by apply load_models_corrupt|].
  split; [|split; [done|]].
  - destruct (prepare_features_total to_datetime {| models := ∅ |} data)
      as [features Hf].
    rewrite (predict_unfold_miss hash repr to_datetime parse_int isoformat
               {| models := ∅ |} cache w data key features) by done.
    rewrite try_models_unregistered; [by rewrite Hr|].
    by repeat constructor.
  - by eapply fallback_model_used.
Qed.

End Resolver.

Section HealthProperties.

Variable type_name : estimator -> string.

Lemma unhealthy_text_not_healthy s :
  String.eqb ("unhealthy: " +:+ s) "healthy" = false.
Proof. reflexivity. Qed.

(** X19. The [/health] endpoint never raises and always answers with the
    time of the call. Its status is [healthy] exactly when the session
    opens, [SELECT 1] runs and the session closes without error, and the
    cache is either disconnected or answers the ping; otherwise it is
    [unhealthy]. The model registry has no influence on the status: an
    empty registry is as healthy as a full one. When the session cannot be
    opened or closed the answer reports database and cache as [unknown];
    otherwise it carries the model status. *)
Theorem health_endpoint_status db cache_service ping ml_service t :
  exists hr,
    Main.health_check type_name db cache_service ping ml_service t = Ok hr /\
    Main.timestamp hr = t /\
    (Main.status hr = "healthy" <->
     Main.SessionLocal db = Ok () /\ Main.execute db = Ok () /\
     Main.close db = Ok () /\
     (is_connected cache_service = true -> exists pong, ping = Ok pong)) /\
    (Main.status hr = "healthy" \/ Main.status hr = "unhealthy") /\
    (Main.SessionLocal db = Ok () /\ Main.close db = Ok () ->
     Main.ml_models hr = inl (get_model_status type_name ml_service) /\
     Main.cache hr =
       (if is_connected cache_service
        then match ping with
             | Ok _ => "healthy"
             | Raise _ => "unhealthy"
             end
        else "disconnected")) /\
    (Main.SessionLocal db <> Ok () \/ Main.close db <> Ok () ->
     Main.database hr = "unknown" /\ Main.cache hr = "unknown").
Proof.
  destruct db as [[[]|es] [[]|ee] [[]|ec]];
    unfold Main.health_check, health_check;
    cbn [Main.SessionLocal Main.execute Main.close bind try_except];
    try rewrite unhealthy_text_not_healthy;
    destruct (is_connected cache_service), ping as [pong|ep];
    cbn; (eexists; split; [reflexivity|]);
    cbn [Main.status Main.timestamp Main.database Main.cache Main.ml_models];
    split_and!; try done; try tauto; try (by left); try (by right);
    try (intros [? | ?]; done); try (intros [? ?]; done);
    try (split; [done|]; intros (? & ? & ? & Hp); try done;
         destruct (Hp eq_refl) as [? ?]; done);
    try (split; [intros _|done]; split_and!; try done; intros _; by eexists);
    try (split; [intros _|done]; split_and!; done).
Qed.

End HealthProperties.

(** ** Instances *)

Section FurtherExamples.

Import Sample Scenario.

Local Abbreviation predict :=
  (predict_loadshedding hash repr to_datetime parse_int isoformat).
Local Abbreviation fallback :=
  (_fallback_prediction to_datetime parse_int isoformat).
Local Abbreviation estimate :=
  (rule_based_estimate to_datetime parse_int isoformat).

(** A result stored with the default TTL at time 1000 is read back at
    time 1060; a negative TTL and a result with an oversized integer are
    refused. *)
Lemma cache_set_get_roundtrip_witness :
  (exists cache',
     cache_set connected calm "prediction:54" stage3_result 0 = Ok (true, cache') /\
     is_connected cache' = true /\
     cache_get cache' noisy "prediction:54" = Ok (Some stage3_result)) /\
  cache_set connected calm "prediction:54" stage3_result (-5) =
    Ok (false, connected) /\
  cache_set connected calm "prediction:54" unserialisable 300 =
    Ok (false, connected).
Proof.
  destruct (cache_set_get_roundtrip connected calm noisy "prediction:54"
              stage3_result 0 eq_refl eq_refl eq_refl) as (Hok & _ & _).
  destruct (cache_set_get_roundtrip connected calm noisy "prediction:54"
              stage3_result (-5) eq_refl eq_refl eq_refl) as (_ & Hneg & _).
  destruct (cache_set_get_roundtrip connected calm noisy "prediction:54"
              unserialisable 300 eq_refl eq_refl eq_refl) as (_ & Hbig & _).
  split; [apply Hok; [lia | vm_compute; reflexivity]|].
  split; [apply Hneg; left; lia|].
  apply Hbig. right. eexists. vm_compute. reflexivity.
Defined.

(** Storing under one key leaves another key as it was. *)
Lemma cache_set_frame_witness :
  exists written cache',
    cache_set stored calm "prediction:40" stage3_result 0 = Ok (written, cache') /\
    is_connected cache' = is_connected stored /\
    cache_get cache' noisy "prediction:54" = cache_get stored noisy "prediction:54".
Proof.
  apply (cache_set_frame stored calm noisy "prediction:40" "prediction:54"
           stage3_result 0).
  discriminate.
Defined.

(** Deleting the stored key. *)
Lemma cache_delete_get_witness :
  exists cache',
    cache_delete stored true "prediction:54" = Ok (true, cache') /\
    cache_get cache' noisy "prediction:54" = Ok None /\
    forall key', key' <> "prediction:54" ->
                 cache_get cache' noisy key' = cache_get stored noisy key'.
Proof.
  apply (cache_delete_get stored noisy "prediction:54").
  vm_compute. reflexivity.
Defined.

(** A connected service in front of a server that is down. *)
Lemma server_failure_is_contained_witness :
  cache_get stored offline "prediction:54" = Ok None /\
  cache_set stored offline "prediction:54" stage3_result 300 = Ok (false, stored) /\
  cache_delete stored false "prediction:54" = Ok (false, stored) /\
  health_check stored (Raise connection_refused) =
    Ok [("status", VStr "unhealthy");
        ("error",
         VStr "Error 111 connecting to localhost:6379. Connection refused.")].
Proof.
  apply (server_failure_is_contained stored offline "prediction:54"
           stage3_result 300 connection_refused).
  - vm_compute. reflexivity.
  - reflexivity.
  - reflexivity.
Defined.

(** Clearing with the pattern [*]. *)
Lemma clear_pattern_clears_witness :
  exists cache',
    clear_pattern glob stored 1000 true true "*" = Ok (true, cache') /\
    (forall w key, glob "*" key = true -> 1000 <= now w ->
                   cache_get cache' w key = Ok None) /\
    (forall key, glob "*" key = false ->
                 redis_client cache' !! key = redis_client stored !! key).
Proof.
  apply (clear_pattern_clears glob stored 1000 "*").
  vm_compute. reflexivity.
Defined.

(** The status of [xgboost_only] reports [predict_proba], and the answer
    carries the largest class probability. *)
Lemma status_capability_decides_confidence_witness :
  exists proba row c,
    predict_proba stage3_model = Some proba /\
    proba peak_features = Ok row /\
    np_max row = Ok c /\
    confidence_score stage3_result = round_float c 3.
Proof.
  apply (status_capability_decides_confidence type_name parse_int isoformat
           xgboost_only "xgboost" "XGBClassifier" true stage3_model calm
           peak_features stage3_result).
  - vm_compute. reflexivity.
  - vm_compute. reflexivity.
  - vm_compute. reflexivity.
Defined.


(** What the router sends has no key ["datetime"]. *)
Lemma missing_datetime_ignores_fields_witness :
  exists r cache',
    predict no_models connected calm router_request = Ok (r, cache') /\
    predict no_models connected calm router_request =
      match try_models parse_int isoformat no_models connected calm
              "prediction:175" default_features model_preferences with
      | Ok (Some answer) => Ok answer
      | _ => Ok (emergency_result isoformat calm (KeyError "datetime"), connected)
      end /\
    ((exists name, first_success parse_int isoformat no_models calm
                     default_features model_preferences name r)
     \/ r = emergency_result isoformat calm (KeyError "datetime")) /\
    model_used r <> "rule_based_fallback".
Proof.
  apply (missing_datetime_ignores_fields hash repr to_datetime parse_int
           isoformat no_models connected calm router_request "prediction:175").
  - reflexivity.
  - vm_compute. reflexivity.
  - vm_compute. reflexivity.
Defined.

(** Adding a [random_forest] entry does not change the answer. *)
Lemma xgboost_answer_shadows_random_forest_witness :
  predict xgboost_only connected calm peak_request =
    Ok (stage3_result, stored) /\
  predict both_models connected calm peak_request =
    Ok (stage3_result, stored).
Proof.
  apply (xgboost_answer_shadows_random_forest hash repr to_datetime parse_int
           isoformat xgboost_only both_models connected calm peak_request
           "prediction:54" peak_features stage3_model stage3_result).
  - vm_compute. reflexivity.
  - vm_compute. reflexivity.
  - vm_compute. reflexivity.
  - vm_compute. reflexivity.
  - vm_compute. reflexivity.
  - vm_compute. reflexivity.
  - vm_compute. reflexivity.
Defined.


(** The peak-hour estimate, with and without the perturbation. *)
Lemma perturbation_magnitude_witness :
  exists r2 c,
    estimate noisy peak_request = Ok r2 /\
    (predicted_stage r2 = Z.max 0 (Z.min 8 (predicted_stage peak_estimate - 1)) \/
     predicted_stage r2 = Z.max 0 (Z.min 8 (predicted_stage peak_estimate + 1))) /\
    Z.abs (predicted_stage r2 - predicted_stage peak_estimate) <= 1 /\
    c ∈ confidence_levels /\
    confidence_score peak_estimate = round_float c 3 /\
    confidence_score r2 = round_float (c * 0.9) 3 /\
    (confidence_score r2 <=? confidence_score peak_estimate)%float = true /\
    deficit_ratio r2 = deficit_ratio peak_estimate /\
    is_peak_hour r2 = is_peak_hour peak_estimate /\
    model_used r2 = model_used peak_estimate.
Proof.
  apply (perturbation_magnitude to_datetime parse_int isoformat calm noisy
           peak_request peak_estimate).
  - vm_compute. reflexivity.
  - vm_compute. reflexivity.
  - vm_compute. reflexivity.
Defined.

(** Generation above demand, and a timestamp that is [NaT]. *)
Lemma zero_deficit_is_stage_0_witness :
  exists r,
    fallback calm surplus_request = Ok r /\
    model_used r = "rule_based_fallback" /\
    deficit_ratio r = Some (VFloat 0) /\
    is_peak_hour r = Some false /\
    (unperturbed calm ->
     predicted_stage r = 0 /\ confidence_score r = 0.85%float) /\
    ((random_random calm <? 0.1)%float = true ->
     (predicted_stage r = 0 \/ predicted_stage r = 1) /\
     confidence_score r = 0.765%float).
Proof.
  apply (zero_deficit_is_stage_0 to_datetime parse_int isoformat calm
           surplus_request VNone NaT 27000 28000).
  - reflexivity.
  - reflexivity.
  - reflexivity.
  - reflexivity.
  - lia.
Defined.

(** The off-peak request has the key of the peak-hour request and is
    given its stored answer, by a service without models. *)
Lemma stored_answer_served_by_key_witness :
  predict no_models stored noisy offpeak_request = Ok (stage3_result, stored).
Proof.
  apply (stored_answer_served_by_key hash repr to_datetime parse_int isoformat
           xgboost_only no_models connected calm noisy peak_request
           offpeak_request "prediction:54" stage3_result stored).
  - vm_compute. reflexivity.
  - vm_compute. reflexivity.
  - vm_compute. reflexivity.
  - vm_compute. reflexivity.
  - apply list_elem_of_here.
  - reflexivity.
  - reflexivity.
  - reflexivity.
  - vm_compute. reflexivity.
Defined.

(** A demand that is [None]. *)
Lemma non_numeric_demand_is_emergency_witness :
  exists r,
    fallback calm null_demand_request = Ok r /\
    model_used r = "emergency_fallback" /\
    error r =
      Some "unsupported operand type(s) for -: 'NoneType' and 'int'" /\
    confidence_score r = 0.5%float /\
    0 <= predicted_stage r <= 3.
Proof.
  apply (non_numeric_demand_is_emergency to_datetime parse_int isoformat calm
           null_demand_request (VStr "2024-06-15T08:00") (Timestamp 8 5 6)
           VNone (VInt 28000)).
  - reflexivity.
  - reflexivity.
  - reflexivity.
  - reflexivity.
  - left. reflexivity.
Defined.

(** A damaged scaler pickle: the model that loads is not used. *)
Lemma corrupt_artifact_means_fallback_witness :
  exists self r,
    MLService_init damaged_scaler_dir = Ok self /\
    predict self connected calm peak_request = Ok (r, connected) /\
    fallback calm peak_request = Ok r /\
    (model_used r = "rule_based_fallback" \/ model_used r = "emergency_fallback").
Proof.
  apply (corrupt_artifact_means_fallback hash repr to_datetime parse_int
           isoformat damaged_scaler_dir connected calm peak_request
           "prediction:54").
  - reflexivity.
  - vm_compute. reflexivity.
  - vm_compute. reflexivity.
Defined.

End FurtherExamples.
